(** * construction-chatbot: sectioning, batched indexing, cached answering

    A shallow embedding of the ingestion-and-retrieval pipeline of
    [src/app]: [document_processor.py], [pdf_handler.py], [retriever.py]
    and [chatbot.py].

    Conventions.
    - A Python [str] is a [string]; each character is a code point below
      256, and the character classes ([str.isspace], the regex classes
      [\s], [\d], [[A-Z]]) are Python's, restricted to that range.
    - A Python [int] is a [Z]; a list index or a length is a [nat].
    - A [datetime] is a [Z]: microseconds on the local clock.
    - Effects are explicit: a computation reads and updates the object
      state and may end in an exception (see [M] below). The outcomes of
      the external services (clock, uuid, vector store, cache, language
      model) come from an [Env] of oracles, indexed by a tick that every
      external interaction advances. *)

From stdpp Require Import gmap strings list fin_maps pretty sorting.
From Stdlib Require Import Ascii ZArith Lia.

Local Open Scope Z_scope.

(** ** Python's string primitives *)

Module Py.

Definition NL : string := String "010"%char "".

Definition code (c : ascii) : N := Ascii.N_of_ascii c.

(** [str.isspace] on one character, which is also the regex class [\s]:
    TAB..CR, FS..US, SPACE, NEL and NBSP. *)
Definition isspace (c : ascii) : bool :=
  let n := code c in
  ((9 <=? n) && (n <=? 13) || (28 <=? n) && (n <=? 32)
   || (n =? 133) || (n =? 160))%N.

(** The regex class [\d]. *)
Definition isdigit (c : ascii) : bool :=
  let n := code c in ((48 <=? n) && (n <=? 57))%N.

(** The regex class [[A-Z]]. *)
Definition isupper_AZ (c : ascii) : bool :=
  let n := code c in ((65 <=? n) && (n <=? 90))%N.

Definition nonempty (s : string) : bool :=
  match s with "" => false | _ => true end.

Fixpoint lstrip (s : string) : string :=
  match s with
  | "" => ""
  | String c r => if isspace c then lstrip r else s
  end.

Fixpoint rstrip (s : string) : string :=
  match s with
  | "" => ""
  | String c r =>
      match rstrip r with
      | "" => if isspace c then "" else String c ""
      | r' => String c r'
      end
  end.

(** [s.strip()] *)
Definition strip (s : string) : string := rstrip (lstrip s).

(** [s.split('\n')]: never empty, [""] gives [[""]]. *)
Fixpoint split_nl (s : string) : list string :=
  match s with
  | "" => [""]
  | String c r =>
      if Ascii.eqb c "010"%char then "" :: split_nl r
      else match split_nl r with
           | h :: t => String c h :: t
           | [] => [String c ""]
           end
  end.

(** [sep.join(parts)] *)
Fixpoint join (sep : string) (parts : list string) : string :=
  match parts with
  | [] => ""
  | [p] => p
  | p :: ps => p +:+ sep +:+ join sep ps
  end.

(** [l[-n:]] for [n > 0]: the last [n] elements, all of [l] when it is
    shorter. *)
Definition last_n {A} (n : nat) (l : list A) : list A :=
  drop (length l - n)%nat l.

End Py.

(** ** Regular expressions of [_is_section_header]

    [re.match] anchors at the start of the line and accepts any prefix.
    In each of the four patterns a repeated class is followed by an item
    of a disjoint class, so the only way to match is to let the
    repetition take the longest run: the matchers below are greedy and
    need no backtracking. A matcher returns the rest of the line. *)

Module Re.

Fixpoint skip (p : ascii -> bool) (s : string) : string :=
  match s with
  | "" => ""
  | String c r => if p c then skip p r else s
  end.

(** One character of the class. *)
Definition one (p : ascii -> bool) (s : string) : option string :=
  match s with
  | String c r => if p c then Some r else None
  | "" => None
  end.

(** [p+] *)
Definition many1 (p : ascii -> bool) (s : string) : option string :=
  skip p <$> one p s.

Definition chr (c : ascii) : string -> option string := one (Ascii.eqb c).

(** A literal word. *)
Fixpoint lit (w s : string) : option string :=
  match w with
  | "" => Some s
  | String a w' =>
      match s with
      | String c r => if Ascii.eqb a c then lit w' r else None
      | "" => None
      end
  end.

(** Sequencing: the next item starts where the previous one stopped. *)
Definition seq (o : option string) (f : string -> option string)
  : option string :=
  match o with Some r => f r | None => None end.

Local Infix ">>" := seq (at level 50, left associativity).

(** [^\d+\.\d+\s+[A-Z]] *)
Definition numbered_subsection (s : string) : option string :=
  many1 Py.isdigit s >> chr "."%char >> many1 Py.isdigit
    >> many1 Py.isspace >> one Py.isupper_AZ.

(** [^SECTION\s+\d{2}] *)
Definition section_keyword (s : string) : option string :=
  lit "SECTION" s >> many1 Py.isspace >> one Py.isdigit >> one Py.isdigit.

(** [^Article\s+\d+] *)
Definition article_keyword (s : string) : option string :=
  lit "Article" s >> many1 Py.isspace >> many1 Py.isdigit.

(** [^\d+\.\s+[A-Z]] *)
Definition numbered_section (s : string) : option string :=
  many1 Py.isdigit s >> chr "."%char >> many1 Py.isspace
    >> one Py.isupper_AZ.

Definition matches (o : option string) : bool :=
  match o with Some _ => true | None => false end.

End Re.

(** ** document_processor.py: the Sectioner *)

Record Section := mkSection {
  title : string;
  content : string;
  page : Z
}.

Module DocumentProcessor.

(** [_is_section_header]: any of the four patterns matches. *)
Definition _is_section_header (line : string) : bool :=
  Re.matches (Re.numbered_subsection line)
  || Re.matches (Re.section_keyword line)
  || Re.matches (Re.article_keyword line)
  || Re.matches (Re.numbered_section line).

(** The loop variables of [_split_into_sections]. *)
Record Loop := mkLoop {
  sections : list Section;
  current_section : Section
}.

Definition start (page_num : Z) : Loop :=
  mkLoop [] (mkSection "" "" page_num).

(** [sections.append(current_section)] under [if current_section['content']]. *)
Definition save (st : Loop) : list Section :=
  if Py.nonempty (content (current_section st))
  then sections st ++ [current_section st]
  else sections st.

(** One iteration of [for line in lines]. *)
Definition step (page_num : Z) (st : Loop) (raw : string) : Loop :=
  let line := Py.strip raw in
  if Py.nonempty line then
    if _is_section_header line then
      mkLoop (save st) (mkSection line "" page_num)
    else
      let cur := current_section st in
      mkLoop (sections st)
             (mkSection (title cur) (content cur +:+ line +:+ Py.NL) (page cur))
  else st.

Definition run (page_num : Z) (lines : list string) (st : Loop) : Loop :=
  fold_left (step page_num) lines st.

(** The loop over given lines followed by the final save. *)
Definition split_lines (lines : list string) (page_num : Z) : list Section :=
  save (run page_num lines (start page_num)).

Definition _split_into_sections (text : string) (page_num : Z) : list Section :=
  split_lines (Py.split_nl text) page_num.

End DocumentProcessor.

Import DocumentProcessor.

(** ** Exceptions and results *)

Inductive Exception :=
| ValueError (msg : string)
| IndexError (msg : string)
| Error (msg : string).

Inductive Result (A : Type) :=
| Ok (a : A)
| Raise (e : Exception).
Arguments Ok {A} a.
Arguments Raise {A} e.

(** ** pdf_handler.py *)

Module FitzPDFHandler.

(** [self.document[i]], the document being the list of its pages' texts.
    [fitz.Document] (PyMuPDF, outside the repository) refuses an index
    that is not below the page count with an IndexError and, like a
    Python sequence, counts a negative one from the end: the page count is
    added until the index is no longer negative. An empty document has no
    page to load. *)
Definition document_getitem (document : list string) (i : Z) : Result string :=
  let n := Z.of_nat (length document) in
  if n <=? i then Raise (IndexError ("page " +:+ pretty i +:+ " not in document"))
  else match document !! Z.to_nat (i mod n) with
       | Some text => Ok text
       | None => Raise (Error "document has no pages")
       end.

Definition number_of_pages (document : list string) : Z :=
  Z.of_nat (length document).

(** [get_page_text]: an IndexError becomes a ValueError, any other
    exception is wrapped. *)
Definition get_page_text (document : list string) (page_number : Z) : Result string :=
  match document_getitem document (page_number - 1) with
  | Ok text => Ok text
  | Raise (IndexError _) =>
      Raise (ValueError ("Page number " +:+ pretty page_number +:+ " out of range"))
  | Raise (ValueError m) | Raise (Error m) =>
      Raise (Error ("Error extracting text from page " +:+ pretty page_number
                    +:+ ": " +:+ m))
  end.

(** The guard of the sibling [extract_section_text]. *)
Definition valid_page_range (document : list string) (start_page end_page : Z) : bool :=
  negb ((start_page <? 1) || (number_of_pages document <? end_page)
        || (end_page <? start_page)).

End FitzPDFHandler.

(** ** retriever.py and chatbot.py: data *)

Record Metadata := mkMetadata {
  meta_doc_id : string;
  meta_title : string;
  meta_page : Z;
  meta_processed_at : string
}.

(** An element of [batch_queue]. *)
Record BatchEntry := mkBatchEntry {
  entry_doc_id : string;
  entry_sections : list Section;
  entry_timestamp : Z
}.

Record Source := mkSource {
  source_title : string;
  source_page : Z;
  source_doc_id : string
}.

Record Answer := mkAnswer {
  answer : string;
  sources : list Source
}.

(** What [collection.query] returns: one ranked list per query text. *)
Record QueryResults := mkQueryResults {
  documents : list (list string);
  metadatas : list (list Metadata)
}.

(** An element of [history]. *)
Record Exchange := mkExchange {
  exchange_question : string;
  exchange_answer : string;
  exchange_timestamp : string
}.

(** The settings of [config.py] and the outcomes of the external
    services. An oracle indexed by a [nat] is asked with the tick of the
    interaction. *)
Record Env := mkEnv {
  BATCH_SIZE : Z;
  now : nat -> Z;
  isoformat : Z -> string;
  uuid4_hex : nat -> string;
  add_fault : nat -> option Exception;
  query_outcome : nat -> string -> Z -> Result QueryResults;
  redis_get_fault : nat -> option Exception;
  redis_set_fault : nat -> option Exception;
  chat_completion : nat -> string -> Result string
}.

(** The mutable state: the attributes of [DocumentRetriever]
    ([collection], [redis], [batch_queue], [last_process_time]) and of
    [ConstructionChatbot] ([history]), the tick of the external
    interactions, and the number of [collection.add] calls issued.
    The vector store and the cache are external services: [collection]
    holds the records of the store keyed by their id and [redis] holds for
    each key the cached Answer with its time-to-live. Expiry is the cache
    service's business and is not modelled. *)
Record State := mkState {
  tick : nat;
  collection : gmap string (string * Metadata);
  add_calls : nat;
  redis : gmap string (Answer * Z);
  batch_queue : list BatchEntry;
  last_process_time : Z;
  history : list Exchange
}.

Definition set_tick (k : nat) (s : State) : State :=
  mkState k (collection s) (add_calls s) (redis s) (batch_queue s)
          (last_process_time s) (history s).
Definition set_collection (c : gmap string (string * Metadata)) (s : State) : State :=
  mkState (tick s) c (add_calls s) (redis s) (batch_queue s)
          (last_process_time s) (history s).
Definition set_add_calls (n : nat) (s : State) : State :=
  mkState (tick s) (collection s) n (redis s) (batch_queue s)
          (last_process_time s) (history s).
Definition set_redis (r : gmap string (Answer * Z)) (s : State) : State :=
  mkState (tick s) (collection s) (add_calls s) r (batch_queue s)
          (last_process_time s) (history s).
Definition set_batch_queue (q : list BatchEntry) (s : State) : State :=
  mkState (tick s) (collection s) (add_calls s) (redis s) q
          (last_process_time s) (history s).
Definition set_last_process_time (t : Z) (s : State) : State :=
  mkState (tick s) (collection s) (add_calls s) (redis s) (batch_queue s)
          t (history s).
Definition set_history (h : list Exchange) (s : State) : State :=
  mkState (tick s) (collection s) (add_calls s) (redis s) (batch_queue s)
          (last_process_time s) h.

(** ** Computations with state and exceptions

    A raised exception keeps the state reached so far, as in Python. A
    handler that logs and re-raises is the computation itself. *)

Definition M (A : Type) : Type := State -> Result A * State.

Definition ret {A} (a : A) : M A := fun s => (Ok a, s).
Definition raise {A} (e : Exception) : M A := fun s => (Raise e, s).
Definition bind {A B} (m : M A) (f : A -> M B) : M B :=
  fun s => match m s with
           | (Ok a, s') => f a s'
           | (Raise e, s') => (Raise e, s')
           end.
Definition gets {A} (f : State -> A) : M A := fun s => (Ok (f s), s).
Definition modify (f : State -> State) : M unit := fun s => (Ok tt, f s).
Definition lift {A} (r : Result A) : M A := fun s => (r, s).

Declare Scope py_scope.
Delimit Scope py_scope with py.
Notation "x <- m ;; k" := (bind m (fun x => k))
  (at level 20, m at level 99, k at level 200, only parsing) : py_scope.
Notation "m ;; k" := (bind m (fun _ => k))
  (at level 100, k at level 200, right associativity, only parsing) : py_scope.
Local Open Scope py_scope.

(** Every external interaction takes the next tick. *)
Definition next_tick : M nat :=
  fun s => (Ok (tick s), set_tick (S (tick s)) s).

(** [datetime.now()] *)
Definition datetime_now (env : Env) : M Z :=
  k <- next_tick ;; ret (now env k).

(** [(later - earlier).seconds]: the seconds field of the normalised
    timedelta, between 0 and 86399, days and microseconds left out. *)
Definition timedelta_seconds (later earlier : Z) : Z :=
  ((later - earlier) mod 86400000000) / 1000000.

(** [s[:n]] *)
Fixpoint str_take (n : nat) (s : string) : string :=
  match n, s with
  | S n', String c r => String c (str_take n' r)
  | _, _ => ""
  end.

(** ** retriever.py: the Batch Accumulator *)

Module DocumentRetriever.

(** The three parallel lists a flush builds. *)
Record Batch := mkBatch {
  docs : list string;
  metadata : list Metadata;
  ids : list string
}.

(** [f"{item['doc_id']}_section_{idx}"] *)
Definition record_id (item_doc_id : string) (idx : nat) : string :=
  item_doc_id +:+ "_section_" +:+ pretty idx.

(** The body of [for idx, section in enumerate(item["sections"])], from
    index [idx] on. *)
Fixpoint batch_sections (env : Env) (item_doc_id : string) (idx : nat)
    (rest : list Section) (b : Batch) : M Batch :=
  match rest with
  | [] => ret b
  | section :: rest' =>
      t <- datetime_now env ;;
      batch_sections env item_doc_id (S idx) rest'
        (mkBatch
           (docs b ++ [content section])
           (metadata b ++ [mkMetadata item_doc_id (title section)
                                       (page section) (isoformat env t)])
           (ids b ++ [record_id item_doc_id idx]))
  end.

(** [for item in self.batch_queue] *)
Fixpoint batch_items (env : Env) (items : list BatchEntry) (b : Batch) : M Batch :=
  match items with
  | [] => ret b
  | item :: items' =>
      b' <- batch_sections env (entry_doc_id item) 0 (entry_sections item) b ;;
      batch_items env items' b'
  end.

(** Modelled from the spec: the insert of the vector store (chromadb's
    [collection.add], which is not part of the repository). The store
    keeps one record per id; the records of an insert are written in the
    order given, a record written under an id already present replacing
    the one that was there. *)
Fixpoint insert_records (documents : list string) (metadatas : list Metadata)
    (ids : list string) (c : gmap string (string * Metadata))
    : gmap string (string * Metadata) :=
  match documents, metadatas, ids with
  | d :: ds, m :: ms, i :: is_ => insert_records ds ms is_ (<[i := (d, m)]> c)
  | _, _, _ => c
  end.

(** Modelled from the spec: [self.collection.add(documents=...,
    metadatas=..., ids=...)] is one call to the external store, which
    either fails as a whole or inserts every record. *)
Definition collection_add (env : Env) (documents : list string)
    (metadatas : list Metadata) (ids : list string) : M unit :=
  k <- next_tick ;;
  modify (fun s => set_add_calls (S (add_calls s)) s) ;;
  match add_fault env k with
  | Some e => raise e
  | None =>
      modify (fun s =>
        set_collection (insert_records documents metadatas ids (collection s)) s)
  end.

Definition _process_batch (env : Env) : M unit :=
  q <- gets batch_queue ;;
  match q with
  | [] => ret tt
  | _ :: _ =>
      b <- batch_items env q (mkBatch [] [] []) ;;
      collection_add env (docs b) (metadata b) (ids b) ;;
      t <- datetime_now env ;;
      modify (set_last_process_time t) ;;
      modify (set_batch_queue [])
  end.

(** [uuid.uuid4().hex[:8]] *)
Definition uuid4_hex8 (env : Env) : M string :=
  k <- next_tick ;; ret (str_take 8 (uuid4_hex env k)).

Definition add_sections (env : Env) (doc_id : string) (sections : list Section)
    : M unit :=
  suffix <- uuid4_hex8 env ;;
  let unique_doc_id := doc_id +:+ "_" +:+ suffix in
  t <- datetime_now env ;;
  modify (fun s =>
    set_batch_queue (batch_queue s ++ [mkBatchEntry unique_doc_id sections t]) s) ;;
  q <- gets batch_queue ;;
  if BATCH_SIZE env <=? Z.of_nat (length q) then _process_batch env
  else
    t' <- datetime_now env ;;
    last <- gets last_process_time ;;
    if 60 <? timedelta_seconds t' last then _process_batch env
    else ret tt.

(** ** retriever.py: the Answer Engine *)

Definition nothing_relevant : Answer :=
  mkAnswer
    "I couldn't find anything relevant in the docs. Could you try rephrasing?"
    [].

(** [await self.redis.get(cache_key)] followed by [json.loads]: the
    Answer stored under the key, if any. *)
Definition redis_get (env : Env) (key : string) : M (option Answer) :=
  k <- next_tick ;;
  match redis_get_fault env k with
  | Some e => raise e
  | None => gets (fun s => fst <$> redis s !! key)
  end.

(** [await self.redis.set(cache_key, json.dumps(response), ex=ttl)] *)
Definition redis_set (env : Env) (key : string) (value : Answer) (ex : Z) : M unit :=
  k <- next_tick ;;
  match redis_set_fault env k with
  | Some e => raise e
  | None => modify (fun s => set_redis (<[key := (value, ex)]> (redis s)) s)
  end.

(** [self.collection.query(query_texts=[question], n_results=n)] *)
Definition collection_query (env : Env) (question : string) (n_results : Z)
    : M QueryResults :=
  k <- next_tick ;; lift (query_outcome env k question n_results).

(** [results[key][0]] *)
Definition first_list {A} (l : list (list A)) : Result (list A) :=
  match l with
  | x :: _ => Ok x
  | [] => Raise (IndexError "list index out of range")
  end.

(** [results["documents"] and results["documents"][0]] as a truth value *)
Definition has_documents (results : QueryResults) : bool :=
  match documents results with
  | (_ :: _) :: _ => true
  | _ => false
  end.

Definition section_lines (dm : string * Metadata) : list string :=
  [ Py.NL +:+ "Section: " +:+ meta_title dm.2 +:+ " (Page "
      +:+ pretty (meta_page dm.2) +:+ ")";
    "Content: " +:+ dm.1 ].

Definition context_part (context : option string) : list string :=
  match context with
  | Some c => if Py.nonempty c then [c] else []
  | None => []
  end.

Definition _format_prompt (question : string) (results : QueryResults)
    (context : option string) : Result string :=
  let tail := [Py.NL +:+ "Question: " +:+ question] in
  if has_documents results then
    match first_list (documents results), first_list (metadatas results) with
    | Ok ds, Ok ms =>
        Ok (Py.join Py.NL
              (context_part context ++ ["Relevant sections:"]
               ++ concat (section_lines <$> zip ds ms) ++ tail))
    | Raise e, _ | _, Raise e => Raise e
    end
  else
    Ok (Py.join Py.NL (context_part context ++ ["No relevant sections found."] ++ tail)).

Definition source_of (meta : Metadata) : Source :=
  mkSource (meta_title meta) (meta_page meta) (meta_doc_id meta).

Definition _generate_response (env : Env) (question : string)
    (results : QueryResults) (context : option string) : M Answer :=
  prompt <- lift (_format_prompt question results context) ;;
  k <- next_tick ;;
  text <- lift (chat_completion env k prompt) ;;
  metas <- lift (first_list (metadatas results)) ;;
  ret (mkAnswer text (source_of <$> metas)).

Definition cache_key (question : string) : string := "query:" +:+ question.

(** [query]; the semaphore only bounds how many calls run at once. *)
Definition query (env : Env) (question : string) (context : option string)
    : M Answer :=
  cached <- redis_get env (cache_key question) ;;
  match cached with
  | Some a => ret a
  | None =>
      results <- collection_query env question 3 ;;
      if has_documents results then
        response <- _generate_response env question results context ;;
        redis_set env (cache_key question) response 300 ;;
        ret response
      else ret nothing_relevant
  end.

End DocumentRetriever.

(** ** chatbot.py: the Conversation Window *)

Module ConstructionChatbot.

Definition exchange_lines (entry : Exchange) : list string :=
  [ "Q: " +:+ exchange_question entry;
    "A: " +:+ exchange_answer entry +:+ Py.NL ].

Definition _get_context (h : list Exchange) : string :=
  Py.join Py.NL
    ("Recent conversation:" :: concat (exchange_lines <$> Py.last_n 2 h)).

(** [self._get_context() if self.history else None] *)
Definition context_of (h : list Exchange) : option string :=
  match h with
  | [] => None
  | _ :: _ => Some (_get_context h)
  end.

(** [if len(self.history) > 5: self.history.pop(0)] *)
Definition trim (h : list Exchange) : list Exchange :=
  if (5 <? length h)%nat then drop 1 h else h.

Definition chat (env : Env) (message : string) : M Answer :=
  h <- gets history ;;
  response <- DocumentRetriever.query env message (context_of h) ;;
  t <- datetime_now env ;;
  modify (fun s =>
    set_history (history s ++ [mkExchange message (answer response)
                                          (isoformat env t)]) s) ;;
  modify (fun s => set_history (trim (history s)) s) ;;
  ret response.

(** A fresh chatbot: nothing stored, nothing queued, no history; the
    retriever notes the time of its construction. *)
Definition init (env : Env) : State :=
  mkState 1 ∅ 0 ∅ [] (now env 0) [].

End ConstructionChatbot.

(** ** Vocabulary of the properties *)

(** No line of the page is a header, each line being tested as the loop
    tests it, stripped. *)
Definition no_header_line (text : string) : Prop :=
  Forall (λ raw, _is_section_header (Py.strip raw) = false) (Py.split_nl text).

(** A header line, as the loop sees it. *)
Definition header_line (raw : string) : Prop :=
  _is_section_header (Py.strip raw) = true.

(** The lines the loop does not skip: stripped and not blank. *)
Definition kept_lines (lines : list string) : list string :=
  List.filter Py.nonempty (Py.strip <$> lines).

(** Each line followed by a newline. *)
Fixpoint newline_terminated (lines : list string) : string :=
  match lines with
  | [] => ""
  | l :: ls => l +:+ Py.NL +:+ newline_terminated ls
  end.

(** The number of records a flush of the queue builds. *)
Fixpoint total_sections (q : list BatchEntry) : nat :=
  match q with
  | [] => 0
  | item :: q' => (length (entry_sections item) + total_sections q')%nat
  end.

(** The ids of the records of one queue entry, by section index. *)
Definition entry_ids (item : BatchEntry) : list string :=
  DocumentRetriever.record_id (entry_doc_id item)
    <$> seq 0 (length (entry_sections item)).

Definition queue_ids (q : list BatchEntry) : list string :=
  concat (entry_ids <$> q).

(** The records of a flush that starts at tick [k]: id, content and
    metadata of every section of every entry, in queue order. *)
Fixpoint section_records (env : Env) (item_doc_id : string) (idx k : nat)
    (rest : list Section) : list (string * (string * Metadata)) :=
  match rest with
  | [] => []
  | section :: rest' =>
      (DocumentRetriever.record_id item_doc_id idx,
       (content section,
        mkMetadata item_doc_id (title section) (page section)
                   (isoformat env (now env k))))
      :: section_records env item_doc_id (S idx) (S k) rest'
  end.

Fixpoint queue_records (env : Env) (k : nat) (q : list BatchEntry)
    : list (string * (string * Metadata)) :=
  match q with
  | [] => []
  | item :: q' =>
      section_records env (entry_doc_id item) 0 k (entry_sections item)
      ++ queue_records env (k + length (entry_sections item)) q'
  end.

(** Inserting records one after the other. *)
Definition insert_all (records : list (string * (string * Metadata)))
    (c : gmap string (string * Metadata)) : gmap string (string * Metadata) :=
  fold_left (λ c r, <[r.1 := r.2]> c) records c.

(** A batch extended with records. *)
Definition extend (b : DocumentRetriever.Batch)
    (records : list (string * (string * Metadata))) : DocumentRetriever.Batch :=
  DocumentRetriever.mkBatch
    (DocumentRetriever.docs b ++ ((λ r, r.2.1) <$> records))
    (DocumentRetriever.metadata b ++ ((λ r, r.2.2) <$> records))
    (DocumentRetriever.ids b ++ (fst <$> records)).

(** The characters of a string. *)
Fixpoint chars (s : string) : list ascii :=
  match s with
  | "" => []
  | String c r => c :: chars r
  end.

(** The state in which [add_sections] decides about the flush: suffix and
    timestamp taken, the entry appended. *)
Definition enqueued (env : Env) (doc_id : string) (sections : list Section)
    (s : State) : State :=
  set_batch_queue
    (batch_queue s
       ++ [mkBatchEntry (doc_id +:+ "_" +:+ str_take 8 (uuid4_hex env (tick s)))
                        sections (now env (S (tick s)))])
    (set_tick (tick s + 2) s).

(** Uploads enqueued one after the other. *)
Fixpoint enqueue_all (env : Env) (uploads : list (string * list Section)) : M unit :=
  match uploads with
  | [] => ret tt
  | upload :: rest =>
      DocumentRetriever.add_sections env upload.1 upload.2 ;;
      enqueue_all env rest
  end.

(** Question and answer of a remembered exchange. *)
Definition qa (entry : Exchange) : string * string :=
  (exchange_question entry, exchange_answer entry).

(** A run of chat turns from one state to another, with the question and
    answer of every turn that succeeded, in order. A turn that raised
    contributes nothing. *)
Inductive turns (env : Env) : State → list (string * string) → State → Prop :=
| turns_done s :
    turns env s [] s
| turns_answered s message response s1 pairs s2 :
    ConstructionChatbot.chat env message s = (Ok response, s1) →
    turns env s1 pairs s2 →
    turns env s ((message, answer response) :: pairs) s2
| turns_failed s message e s1 pairs s2 :
    ConstructionChatbot.chat env message s = (Raise e, s1) →
    turns env s1 pairs s2 →
    turns env s pairs s2.

(** The context as the specification words it: nothing without history,
    otherwise the preamble line and a Q:/A: pair for each of the last two
    exchanges. *)
Definition rendered (pairs : list (string * string)) : option string :=
  match pairs with
  | [] => None
  | _ :: _ =>
      Some (Py.join Py.NL
              ("Recent conversation:"
               :: concat ((λ p, ["Q: " +:+ p.1; "A: " +:+ p.2 +:+ Py.NL])
                            <$> Py.last_n 2 pairs)))
  end.

(** ** Sample environments and states *)

(** A clock that advances one second per tick. *)
Definition sample_clock (k : nat) : Z := 1000000 * Z.of_nat k.

Definition sample_results : QueryResults :=
  mkQueryResults
    [["Concrete shall cure for 28 days."; "Formwork stays 7 days."]]
    [[mkMetadata "doc_spec_20240101_9f86d081" "3.1 CURING" 12 "0";
      mkMetadata "doc_spec_20240101_9f86d081" "3.2 FORMWORK" 13 "0"]].

(** Every service answers. *)
Definition sample_env : Env :=
  mkEnv 10 sample_clock pretty (λ _, "9f86d081884c7d659a2feaa0c55ad015")
        (λ _, None) (λ _ _ _, Ok sample_results) (λ _, None) (λ _, None)
        (λ _ _, Ok "Curing takes 28 days.").

(** The vector store refuses every insert. *)
Definition failing_store_env : Env :=
  mkEnv 10 sample_clock pretty (λ _, "9f86d081884c7d659a2feaa0c55ad015")
        (λ _, Some (Error "store unavailable")) (λ _ _ _, Ok sample_results)
        (λ _, None) (λ _, None) (λ _ _, Ok "Curing takes 28 days.").

(** The vector store finds nothing. *)
Definition empty_results_env : Env :=
  mkEnv 10 sample_clock pretty (λ _, "9f86d081884c7d659a2feaa0c55ad015")
        (λ _, None) (λ _ _ _, Ok (mkQueryResults [[]] [[]])) (λ _, None)
        (λ _, None) (λ _ _, Ok "Curing takes 28 days.").

(** The vector store fails on every query. *)
Definition failing_query_env : Env :=
  mkEnv 10 sample_clock pretty (λ _, "9f86d081884c7d659a2feaa0c55ad015")
        (λ _, None) (λ _ _ _, Raise (Error "store unavailable")) (λ _, None)
        (λ _, None) (λ _ _, Ok "Curing takes 28 days.").

Definition sample_entry : BatchEntry :=
  mkBatchEntry "doc_spec_20240101_9f86d081"
    [ mkSection "1.1 GENERAL" "Scope text." 1;
      mkSection "1.2 DEFINITIONS" "Def text." 1 ] 0.

(** An empty store and cache, one entry queued, two exchanges remembered. *)
Definition sample_state : State :=
  mkState 1 ∅ 0 ∅ [sample_entry] 0
          [ mkExchange "What is the scope?" "See 1.1." "0";
            mkExchange "Who is the owner?" "See 1.2." "1" ].

(** The clock stands one day and ten seconds after the epoch. *)
Definition day_later_env : Env :=
  mkEnv 10 (λ _, 86410000000) pretty (λ _, "9f86d081884c7d659a2feaa0c55ad015")
        (λ _, None) (λ _ _ _, Ok sample_results) (λ _, None) (λ _, None)
        (λ _ _, Ok "Curing takes 28 days.").

(** The clock starts 100 seconds after the epoch. *)
Definition late_start_env : Env :=
  mkEnv 10 (λ k, 100000000 + sample_clock k) pretty
        (λ _, "9f86d081884c7d659a2feaa0c55ad015")
        (λ _, None) (λ _ _ _, Ok sample_results) (λ _, None) (λ _, None)
        (λ _ _, Ok "Curing takes 28 days.").

(** Nothing queued, the last flush at the epoch. *)
Definition idle_state : State := mkState 1 ∅ 0 ∅ [] 0 [].

Definition ten_uploads : list (string * list Section) :=
  replicate 10 ("doc_spec_20240101", [mkSection "1.1 GENERAL" "Scope text." 1]).

(** The settings of [sample_env] with a batch size of three, the clock
    running at a tenth of a second per tick. *)
Definition small_batch_env : Env :=
  mkEnv 3 (λ k, 100000 * Z.of_nat k) pretty
        (λ _, "9f86d081884c7d659a2feaa0c55ad015")
        (λ _, None) (λ _ _ _, Ok sample_results) (λ _, None) (λ _, None)
        (λ _ _, Ok "Curing takes 28 days.").

Definition three_uploads : list (string * list Section) :=
  replicate 3 ("doc_spec_20240101", [mkSection "1.1 GENERAL" "Scope text." 1]).

(** Seven questions and the answers [sample_env] gives. *)
Definition seven_questions : list string :=
  ["q1"; "q2"; "q3"; "q4"; "q5"; "q6"; "q7"].

Definition seven_pairs : list (string * string) :=
  (λ q, (q, "Curing takes 28 days.")) <$> seven_questions.

(** ** Proof automation *)

Import DocumentRetriever.
Import ConstructionChatbot.

(** Simplifies the projections of an updated state. *)
Ltac simp_state :=
  cbn [tick set_tick redis set_redis history set_history batch_queue
       collection add_calls last_process_time fst snd
       fmap option_fmap option_map].

(** Unfolds the primitive computations. *)
Ltac step_m :=
  unfold redis_get, redis_set, collection_query, datetime_now, bind, lift,
    raise, modify, gets, ret, next_tick;
  simp_state.

(** Proves the next turn of a run by running it. *)
Ltac answered_turn :=
  match goal with
  | |- turns ?env ?s ((?m, _) :: _) _ =>
      let r := eval vm_compute in (chat env m s) in
      match r with
      | (Ok ?a, ?s1) =>
          apply (turns_answered env s m a s1); [vm_compute; reflexivity|]
      end
  end.

(** The entry of [sample_state] sectioned again, with other contents. *)
Definition revised_entry : BatchEntry :=
  mkBatchEntry "doc_spec_20240101_9f86d081"
    [ mkSection "1.1 GENERAL" "Scope text, revised." 1;
      mkSection "1.2 TERMS" "Terms text." 2 ] 5000000.

(** ** More vocabulary: the lines of a page *)

(** The kept lines that are headers, and those that are body text. *)
Definition header_lines (lines : list string) : list string :=
  List.filter _is_section_header (kept_lines lines).

Definition body_lines (lines : list string) : list string :=
  List.filter (λ line, negb (_is_section_header line)) (kept_lines lines).

(** What the loop does with a line it keeps. *)
Definition feed (page_num : Z) (st : Loop) (line : string) : Loop :=
  if _is_section_header line then
    mkLoop (save st) (mkSection line "" page_num)
  else
    mkLoop (sections st)
           (mkSection (title (current_section st))
                      (content (current_section st) +:+ line +:+ Py.NL)
                      (page (current_section st))).

(** The strings of a list, one after the other. *)
Fixpoint concat_str (l : list string) : string :=
  match l with
  | [] => ""
  | s :: l' => s +:+ concat_str l'
  end.

(** The text held by the loop: saved sections and the current one. *)
Definition held_text (st : Loop) : string :=
  concat_str (content <$> sections st) +:+ content (current_section st).

(** What the loop keeps true of its state on page [page_num]. *)
Definition well_formed (page_num : Z) (s : Section) : Prop :=
  content s ≠ "" ∧ page s = page_num
  ∧ (title s = "" ∨ _is_section_header (title s) = true).

Definition loop_invariant (page_num : Z) (st : Loop) : Prop :=
  Forall (well_formed page_num) (sections st)
  ∧ page (current_section st) = page_num
  ∧ (title (current_section st) = ""
     ∨ _is_section_header (title (current_section st)) = true)
  ∧ (title (current_section st) = "" → sections st = [])
  ∧ Forall (λ s, title s ≠ "") (drop 1 (sections st)).

(** The non-empty titles held by the loop, saved and current. *)
Definition held_titles (st : Loop) : list string :=
  List.filter Py.nonempty (title <$> (sections st ++ [current_section st])).

(** Splits a matched sequence at its last item. *)
Tactic Notation "last_item" hyp(H) "as" ident(r) ident(E) :=
  match type of H with
  | Re.seq ?o _ = Some _ =>
      destruct o as [r|] eqn:E; [cbn [Re.seq] in H|discriminate H]
  end.

(** * More of the code *)

(** [str(e)] for the exceptions raised here: the message. *)
Definition message (e : Exception) : string :=
  match e with
  | ValueError m | IndexError m | Error m => m
  end.

(** [range(a, b)] *)
Definition py_range (a b : Z) : list Z := seqZ a (b - a).

(** ** pdf_handler.py: texts of several pages *)

Module PDF.

(** The generator [self.get_page_text(page_num) for page_num in ...] as
    [join] consumes it: page after page, the first exception ends it. *)
Fixpoint page_texts (document : list string) (page_nums : list Z)
    : Result (list string) :=
  match page_nums with
  | [] => Ok []
  | page_num :: rest =>
      match FitzPDFHandler.get_page_text document page_num with
      | Raise e => Raise e
      | Ok text =>
          match page_texts document rest with
          | Raise e => Raise e
          | Ok texts => Ok (text :: texts)
          end
      end
  end.

(** [extract_section_text] *)
Definition extract_section_text (document : list string) (start_page end_page : Z)
    : Result string :=
  if (start_page <? 1)
     || (FitzPDFHandler.number_of_pages document <? end_page)
     || (end_page <? start_page)
  then Raise (ValueError "Invalid page range")
  else
    match page_texts document (py_range start_page (end_page + 1)) with
    | Ok texts => Ok (Py.join Py.NL texts)
    | Raise e => Raise e
    end.

(** [get_document_text]: any exception is wrapped. *)
Definition get_document_text (document : list string) : Result string :=
  match page_texts document
          (py_range 1 (FitzPDFHandler.number_of_pages document + 1)) with
  | Ok texts => Ok (Py.join Py.NL texts)
  | Raise e => Raise (Error ("Error extracting document text: " +:+ message e))
  end.

End PDF.

(** ** document_processor.py: processing and searching documents *)

Module Documents.

Record ProcessedDocument := mkProcessed {
  doc_sections : list Section;
  total_pages : Z
}.

(** [d[key] = value] on a dict, which keeps the order of first insertion. *)
Fixpoint dict_set {V} (key : string) (value : V) (d : list (string * V))
    : list (string * V) :=
  match d with
  | [] => [(key, value)]
  | (k, v) :: rest =>
      if String.eqb k key then (k, value) :: rest
      else (k, v) :: dict_set key value rest
  end.

(** [d.get(key)] *)
Fixpoint dict_get {V} (key : string) (d : list (string * V)) : option V :=
  match d with
  | [] => None
  | (k, v) :: rest => if String.eqb k key then Some v else dict_get key rest
  end.

(** [FitzPDFHandler(file_path)] for a path, given what [fitz.open]
    does: the pages of the document, or an exception, which is wrapped. *)
Definition open_pdf (fitz_open : Result (list string)) : Result (list string) :=
  match fitz_open with
  | Ok document => Ok document
  | Raise e => Raise (ValueError ("Error loading PDF from path: " +:+ message e))
  end.

(** The loop [for page_num in range(1, number_of_pages + 1)], with the
    sections gathered so far. *)
Fixpoint page_sections (document : list string) (page_nums : list Z)
    (sections : list Section) : Result (list Section) :=
  match page_nums with
  | [] => Ok sections
  | page_num :: rest =>
      match FitzPDFHandler.get_page_text document page_num with
      | Raise e => Raise e
      | Ok text =>
          page_sections document rest
            (sections ++ _split_into_sections text page_num)
      end
  end.

Definition processing_error (doc_id : string) (e : Exception) : Exception :=
  Error ("Error processing document " +:+ doc_id +:+ ": " +:+ message e).

(** [process_document]: the result and the [documents] of the processor
    afterwards. *)
Definition process_document (fitz_open : Result (list string)) (doc_id : string)
    (documents : list (string * ProcessedDocument))
    : Result ProcessedDocument * list (string * ProcessedDocument) :=
  match open_pdf fitz_open with
  | Raise e => (Raise (processing_error doc_id e), documents)
  | Ok document =>
      match page_sections document
              (py_range 1 (FitzPDFHandler.number_of_pages document + 1)) [] with
      | Raise e => (Raise (processing_error doc_id e), documents)
      | Ok sections =>
          let processed :=
            mkProcessed sections (FitzPDFHandler.number_of_pages document) in
          (Ok processed, dict_set doc_id processed documents)
      end
  end.

End Documents.

(** The sections of consecutive pages, the first numbered [page_num]. *)
Fixpoint sections_from (page_num : Z) (texts : list string) : list Section :=
  match texts with
  | [] => []
  | text :: rest =>
      _split_into_sections text page_num ++ sections_from (page_num + 1) rest
  end.

(** * The properties *)

(** ** Header patterns *)

Example header_1_1 : _is_section_header "1.1 GENERAL" = true.
Proof. reflexivity. Qed.
Example header_section : _is_section_header "SECTION 01" = true.
Proof. reflexivity. Qed.
Example header_section_1 : _is_section_header "SECTION 1" = false.
Proof. reflexivity. Qed.
Example header_article : _is_section_header "Article 7 Payment" = true.
Proof. reflexivity. Qed.
Example header_numbered : _is_section_header "12. SCOPE" = true.
Proof. reflexivity. Qed.
Example header_lower : _is_section_header "1.1 general" = false.
Proof. reflexivity. Qed.
Example header_plain : _is_section_header "Scope text." = false.
Proof. reflexivity. Qed.

(** The end-to-end example of the specification. *)
Example split_two_sections :
  _split_into_sections
    ("1.1 GENERAL" +:+ Py.NL +:+ "Scope text." +:+ Py.NL +:+
     "1.2 DEFINITIONS" +:+ Py.NL +:+ "Def text." +:+ Py.NL) 1
  = [ mkSection "1.1 GENERAL" ("Scope text." +:+ Py.NL) 1;
      mkSection "1.2 DEFINITIONS" ("Def text." +:+ Py.NL) 1 ].
Proof. reflexivity. Qed.


(** ** Strings *)

Lemma app_nil_r_str (s : string) : s +:+ "" = s.
Proof.
  induction s as [|c s IH]; [reflexivity|].
  change (String c (s +:+ "") = String c s). now rewrite IH.
Qed.

Lemma app_assoc_str (a b c : string) : (a +:+ b) +:+ c = a +:+ (b +:+ c).
Proof.
  induction a as [|x a IH]; [reflexivity|].
  change (String x ((a +:+ b) +:+ c) = String x (a +:+ (b +:+ c))). now rewrite IH.
Qed.

Lemma nonempty_app_NL (l r : string) : Py.nonempty (l +:+ Py.NL +:+ r) = true.
Proof. destruct l; reflexivity. Qed.

Lemma nonempty_false (s : string) : Py.nonempty s = false ↔ s = "".
Proof. destruct s; split; intros; congruence || reflexivity || discriminate. Qed.

(** ** Sectioning *)

Lemma header_is_not_blank (line : string) :
  _is_section_header line = true → Py.nonempty line = true.
Proof. destruct line; [discriminate|reflexivity]. Qed.

Lemma step_header page_num st raw :
  header_line raw →
  step page_num st raw = mkLoop (save st) (mkSection (Py.strip raw) "" page_num).
Proof.
  intros H. unfold step. rewrite (header_is_not_blank _ H).
  unfold header_line in H. now rewrite H.
Qed.

Lemma run_app page_num l1 l2 st :
  run page_num (l1 ++ l2) st = run page_num l2 (run page_num l1 st).
Proof. unfold run. apply fold_left_app. Qed.

(** Without headers the loop only extends the content of the current
    section. *)
Lemma run_without_headers page_num lines st :
  Forall (λ raw, _is_section_header (Py.strip raw) = false) lines →
  run page_num lines st =
    mkLoop (sections st)
           (mkSection (title (current_section st))
                      (content (current_section st)
                         +:+ newline_terminated (kept_lines lines))
                      (page (current_section st))).
Proof.
  revert st. induction lines as [|raw lines IH]; intros st Hno.
  - destruct st as [secs [t c p]]. unfold run, kept_lines.
    cbn [fold_left fmap list_fmap List.filter newline_terminated
         sections current_section title content page].
    now rewrite app_nil_r_str.
  - change (run page_num (raw :: lines) st)
      with (run page_num lines (step page_num st raw)).
    apply Forall_cons in Hno as [Hraw Hno]. rewrite IH by exact Hno.
    unfold step, kept_lines. cbn [fmap list_fmap List.filter].
    destruct (Py.nonempty (Py.strip raw)) eqn:Hne.
    + rewrite Hraw. cbn [sections current_section title content page newline_terminated].
      now rewrite !app_assoc_str.
    + reflexivity.
Qed.

Lemma save_empty_current secs t p :
  save (mkLoop secs (mkSection t "" p)) = secs.
Proof. reflexivity. Qed.

(** C1 (as amended). On a page without header lines the sectioner returns
    at most one section: none when every line is blank, and otherwise one
    section with an empty title, the page number given, and as content the
    stripped non-blank lines, each followed by a newline. *)
Theorem split_without_headers (text : string) (page_num : Z) :
  no_header_line text →
  _split_into_sections text page_num =
    match kept_lines (Py.split_nl text) with
    | [] => []
    | _ :: _ =>
        [mkSection "" (newline_terminated (kept_lines (Py.split_nl text))) page_num]
    end.
Proof.
  intros Hno. unfold _split_into_sections, split_lines.
  rewrite (run_without_headers _ _ _ Hno).
  unfold start, save. cbn [sections current_section title content page].
  change ("" +:+ ?x) with x.
  destruct (kept_lines (Py.split_nl text)) as [|l ls]; [reflexivity|].
  cbn [newline_terminated]. now rewrite nonempty_app_NL.
Qed.

Lemma split_without_headers_witness :
  no_header_line ("  Scope of work " +:+ Py.NL +:+ Py.NL +:+ "as drawn")
  ∧ _split_into_sections
      ("  Scope of work " +:+ Py.NL +:+ Py.NL +:+ "as drawn") 3
    = [mkSection "" ("Scope of work" +:+ Py.NL +:+ "as drawn" +:+ Py.NL) 3].
Proof.
  assert (H : no_header_line ("  Scope of work " +:+ Py.NL +:+ Py.NL +:+ "as drawn"))
    by (repeat constructor).
  split; [exact H|].
  exact (split_without_headers _ 3 H).
Defined.

(** C1 as stated fails: a blank page has no header line and yields no
    section at all, and a line is stored stripped and newline-terminated,
    not as it stands in the page text. *)
Lemma split_blank_page_counterexample :
  (no_header_line ""
   ∧ ¬ ∃ s, _split_into_sections "" 1 = [s] ∧ title s = ""
            ∧ content s = Py.join Py.NL (Py.split_nl ""))
  ∧ (no_header_line " as drawn"
     ∧ ¬ ∃ s, _split_into_sections " as drawn" 1 = [s] ∧ title s = ""
              ∧ content s = Py.join Py.NL (Py.split_nl " as drawn")).
Proof.
  split; (split; [repeat constructor|]).
  - intros (s & H & _). discriminate H.
  - intros (s & H & _ & Hc). vm_compute in H. injection H as <-.
    vm_compute in Hc. discriminate Hc.
Qed.

(** C7. A header met while the current section has no content replaces
    the title and emits nothing, so of two consecutive headers only the
    second counts; the final save appends the current section exactly when
    its content is not empty, so a header at the end of the page, with no
    body after it, leaves no section. *)
Theorem header_handling (page_num : Z) (st : Loop)
    (before after lines : list string) (h1 h2 : string) :
  header_line h1 → header_line h2 →
  (content (current_section st) = "" →
     step page_num st h2
     = mkLoop (sections st) (mkSection (Py.strip h2) "" page_num))
  ∧ split_lines (before ++ h1 :: h2 :: after) page_num
    = split_lines (before ++ h2 :: after) page_num
  ∧ (save st = sections st ++ [current_section st]
     ↔ content (current_section st) ≠ "")
  ∧ (save st = sections st ↔ content (current_section st) = "")
  ∧ split_lines (lines ++ [h2]) page_num = split_lines lines page_num.
Proof.
  intros H1 H2. repeat split.
  - intros Hc. rewrite (step_header _ _ _ H2). f_equal.
    unfold save. now rewrite Hc.
  - unfold split_lines. rewrite !run_app. f_equal.
    change (run page_num (h1 :: h2 :: after) ?s)
      with (run page_num after (step page_num (step page_num s h1) h2)).
    change (run page_num (h2 :: after) ?s)
      with (run page_num after (step page_num s h2)).
    f_equal. now rewrite !step_header.
  - unfold save. destruct (content (current_section st)); [|discriminate].
    cbn [Py.nonempty]. intros H%(f_equal length).
    rewrite length_app in H. cbn in H. lia.
  - unfold save. intros Hc. destruct (content (current_section st)); [congruence|reflexivity].
  - unfold save. destruct (content (current_section st)); [reflexivity|].
    cbn [Py.nonempty]. intros H%(f_equal length).
    rewrite length_app in H. cbn in H. lia.
  - unfold save. intros ->. reflexivity.
  - unfold split_lines. rewrite run_app.
    change (run page_num [h2] ?s) with (step page_num s h2).
    now rewrite step_header.
Qed.

Lemma header_handling_witness :
  header_line "1.1 GENERAL" ∧ header_line " 1.2 DEFINITIONS "
  ∧ split_lines ["Preamble"; "1.1 GENERAL"; " 1.2 DEFINITIONS "; "Def text."] 1
    = split_lines ["Preamble"; " 1.2 DEFINITIONS "; "Def text."] 1
  ∧ split_lines ["Preamble"; " 1.2 DEFINITIONS "] 1 = split_lines ["Preamble"] 1.
Proof.
  assert (H1 : header_line "1.1 GENERAL") by reflexivity.
  assert (H2 : header_line " 1.2 DEFINITIONS ") by reflexivity.
  destruct (header_handling 1 (start 1) ["Preamble"] ["Def text."] ["Preamble"]
              _ _ H1 H2) as (_ & Hc & _ & _ & Ht).
  repeat split; assumption.
Defined.

(** ** The page source *)

Lemma get_page_text_in_range document page_number :
  1 ≤ page_number ≤ FitzPDFHandler.number_of_pages document →
  ∃ text, document !! Z.to_nat (page_number - 1) = Some text
          ∧ FitzPDFHandler.get_page_text document page_number = Ok text.
Proof.
  unfold FitzPDFHandler.number_of_pages, FitzPDFHandler.get_page_text,
    FitzPDFHandler.document_getitem. intros H.
  destruct (Z.leb_spec (Z.of_nat (length document)) (page_number - 1)); [lia|].
  rewrite Z.mod_small by lia.
  destruct (lookup_lt_is_Some_2 document (Z.to_nat (page_number - 1))) as [text Ht];
    [lia|].
  exists text. now rewrite Ht.
Qed.

Lemma get_page_text_above_range document page_number :
  FitzPDFHandler.number_of_pages document < page_number →
  FitzPDFHandler.get_page_text document page_number
  = Raise (ValueError ("Page number " +:+ pretty page_number +:+ " out of range")).
Proof.
  unfold FitzPDFHandler.number_of_pages, FitzPDFHandler.get_page_text,
    FitzPDFHandler.document_getitem. intros H.
  destruct (Z.leb_spec (Z.of_nat (length document)) (page_number - 1)); [reflexivity|lia].
Qed.

(** Below the range nothing is raised: the pages are counted from the end. *)
Lemma get_page_text_below_range document page_number :
  document ≠ [] → page_number ≤ 0 →
  ∃ text, text ∈ document
          ∧ FitzPDFHandler.get_page_text document page_number = Ok text.
Proof.
  unfold FitzPDFHandler.get_page_text, FitzPDFHandler.document_getitem.
  intros Hne H.
  assert (0 < Z.of_nat (length document)) by (destruct document; [congruence|cbn; lia]).
  destruct (Z.leb_spec (Z.of_nat (length document)) (page_number - 1)); [lia|].
  pose proof (Z.mod_pos_bound (page_number - 1) (Z.of_nat (length document)) ltac:(lia)).
  destruct (lookup_lt_is_Some_2 document
              (Z.to_nat ((page_number - 1) mod Z.of_nat (length document))))
    as [text Ht]; [lia|].
  exists text. rewrite Ht. split; [|reflexivity].
  eapply list_elem_of_lookup_2, Ht.
Qed.

(** C6. The claim asks for a range error at every index outside
    [1, number_of_pages]. At index 0 of a two-page document
    [get_page_text] returns the text of the last page instead, where the
    guard of [extract_section_text] rejects a range starting at 0. *)
Theorem get_page_text_zero_is_last_page :
  FitzPDFHandler.get_page_text ["first page"; "last page"] 0 = Ok "last page"
  ∧ FitzPDFHandler.valid_page_range ["first page"; "last page"] 0 1 = false.
Proof. split; reflexivity. Qed.

(** ** The state under the clock *)

Lemma set_tick_same s : set_tick (tick s) s = s.
Proof. now destruct s. Qed.

Lemma set_tick_twice k k' s : set_tick k' (set_tick k s) = set_tick k' s.
Proof. reflexivity. Qed.

Lemma extend_nil b : extend b [] = b.
Proof. destruct b. unfold extend. cbn. now rewrite !app_nil_r. Qed.

Lemma extend_cons b r rs :
  extend b (r :: rs)
  = extend (mkBatch (docs b ++ [r.2.1]) (metadata b ++ [r.2.2]) (ids b ++ [r.1])) rs.
Proof. unfold extend. cbn. now rewrite <- !app_assoc. Qed.

Lemma extend_app b rs rs' : extend b (rs ++ rs') = extend (extend b rs) rs'.
Proof. unfold extend. cbn. now rewrite !fmap_app, !app_assoc. Qed.

(** ** Building the batch *)

Lemma batch_sections_run env d idx secs b s :
  batch_sections env d idx secs b s
  = (Ok (extend b (section_records env d idx (tick s) secs)),
     set_tick (tick s + length secs) s).
Proof.
  revert idx b s. induction secs as [|sec secs IH]; intros idx b s.
  - cbn. rewrite extend_nil, Nat.add_0_r, set_tick_same. reflexivity.
  - cbn [batch_sections section_records length].
    unfold bind at 1. unfold datetime_now, bind, next_tick, ret.
    rewrite IH, extend_cons. cbn [tick set_tick fst snd].
    rewrite set_tick_twice. do 2 f_equal. lia.
Qed.

Lemma batch_items_run env q b s :
  batch_items env q b s
  = (Ok (extend b (queue_records env (tick s) q)),
     set_tick (tick s + total_sections q) s).
Proof.
  revert b s. induction q as [|item q IH]; intros b s.
  - cbn. rewrite extend_nil, Nat.add_0_r, set_tick_same. reflexivity.
  - cbn [batch_items queue_records total_sections]. unfold bind.
    rewrite batch_sections_run, IH, extend_app. cbn [tick set_tick].
    rewrite set_tick_twice. do 2 f_equal. lia.
Qed.

Lemma insert_records_extend rs c :
  insert_records ((λ r, r.2.1) <$> rs) ((λ r, r.2.2) <$> rs) (fst <$> rs) c
  = insert_all rs c.
Proof.
  revert c. induction rs as [|[i [d m]] rs IH]; intros c; [reflexivity|].
  cbn. apply IH.
Qed.

(** ** The flush *)

(** The state a successful flush leaves. *)
Lemma process_batch_success env s :
  batch_queue s ≠ [] →
  add_fault env (tick s + total_sections (batch_queue s)) = None →
  _process_batch env s
  = (Ok tt,
     mkState (tick s + total_sections (batch_queue s) + 2)
             (insert_all (queue_records env (tick s) (batch_queue s)) (collection s))
             (S (add_calls s)) (redis s) []
             (now env (S (tick s + total_sections (batch_queue s))))
             (history s)).
Proof.
  intros Hq Hadd. unfold _process_batch. unfold bind at 1, gets at 1.
  destruct (batch_queue s) as [|item q] eqn:Eq; [congruence|].
  unfold bind at 1. rewrite batch_items_run.
  unfold collection_add, datetime_now, bind, next_tick, modify, ret.
  cbn [tick set_tick set_add_calls add_calls fst snd].
  rewrite Hadd. unfold extend.
  cbn [docs metadata ids app]. rewrite insert_records_extend.
  unfold set_last_process_time, set_batch_queue, set_collection, set_tick, set_add_calls.
  cbn. do 2 f_equal. lia.
Qed.

(** The state a failed flush leaves: only the clock and the call count
    have moved. *)
Lemma process_batch_failure env s e :
  batch_queue s ≠ [] →
  add_fault env (tick s + total_sections (batch_queue s)) = Some e →
  _process_batch env s
  = (Raise e,
     mkState (S (tick s + total_sections (batch_queue s)))
             (collection s) (S (add_calls s)) (redis s) (batch_queue s)
             (last_process_time s) (history s)).
Proof.
  intros Hq Hadd. unfold _process_batch. unfold bind at 1, gets at 1.
  destruct (batch_queue s) as [|item q] eqn:Eq; [congruence|].
  unfold bind at 1. rewrite batch_items_run.
  unfold collection_add, datetime_now, bind, next_tick, modify, ret, raise.
  cbn [tick set_tick set_add_calls add_calls fst snd].
  rewrite Hadd. unfold set_tick, set_add_calls. cbn. now rewrite Eq.
Qed.

Lemma process_batch_empty env s :
  batch_queue s = [] → _process_batch env s = (Ok tt, s).
Proof.
  intros Hq. unfold _process_batch, bind, gets. now rewrite Hq.
Qed.

(** ** Record ids

    The id of a record determines the entry's doc_id and the section
    index: the index is the run of digits after the last underscore. *)

Lemma chars_app a b : chars (a +:+ b) = chars a ++ chars b.
Proof.
  induction a as [|c a IH]; [reflexivity|].
  change (c :: chars (a +:+ b) = c :: chars a ++ chars b). now rewrite IH.
Qed.

Lemma chars_inj a b : chars a = chars b → a = b.
Proof.
  revert b. induction a as [|c a IH]; intros [|c' b] H; try discriminate; [reflexivity|].
  injection H as -> H. f_equal. now apply IH.
Qed.

Lemma pretty_N_char_digit x : Py.isdigit (pretty_N_char x) = true.
Proof. unfold pretty_N_char. repeat case_match; reflexivity. Qed.

Lemma pretty_N_go_digits x s :
  Forall (λ c, Py.isdigit c = true) (chars s) →
  Forall (λ c, Py.isdigit c = true) (chars (pretty_N_go x s)).
Proof.
  revert s. induction (N.lt_wf_0 x) as [x _ IH]; intros s Hs.
  destruct (decide (x = 0)%N) as [->|Hx].
  - now rewrite pretty_N_go_0.
  - rewrite pretty_N_go_step by lia. apply IH.
    + apply N.div_lt; lia.
    + cbn. constructor; [apply pretty_N_char_digit|exact Hs].
Qed.

Lemma pretty_nat_digits (n : nat) :
  Forall (λ c, Py.isdigit c = true) (chars (pretty n)).
Proof.
  unfold pretty, pretty_nat, pretty, pretty_N.
  case_decide.
  - repeat constructor.
  - apply pretty_N_go_digits. constructor.
Qed.

(** A string that ends in a given non-digit followed by digits splits in
    one way only. *)
Lemma split_at_last_non_digit (x : ascii) (l1 l2 p1 p2 : list ascii) :
  Py.isdigit x = false →
  Forall (λ c, Py.isdigit c = true) p1 →
  Forall (λ c, Py.isdigit c = true) p2 →
  l1 ++ x :: p1 = l2 ++ x :: p2 → l1 = l2 ∧ p1 = p2.
Proof.
  intros Hx H1 H2. revert l2.
  induction l1 as [|c l1 IH]; intros [|c' l2] H; cbn in H.
  - injection H as ->. now split.
  - injection H as <- ->. exfalso.
    rewrite Forall_app, Forall_cons in H1. destruct H1 as (_ & Hd & _). congruence.
  - injection H as -> <-. exfalso.
    rewrite Forall_app, Forall_cons in H2. destruct H2 as (_ & Hd & _). congruence.
  - injection H as -> H. destruct (IH _ H) as [-> ->]. now split.
Qed.

Lemma record_id_inj d1 i1 d2 i2 :
  record_id d1 i1 = record_id d2 i2 → d1 = d2 ∧ i1 = i2.
Proof.
  unfold record_id. intros H%(f_equal chars).
  rewrite !chars_app in H.
  change (chars "_section_") with (chars "_section" ++ ["_"%char]) in H.
  rewrite <- !app_assoc in H. cbn [app] in H.
  rewrite !(app_assoc (chars _) (chars "_section")) in H.
  apply split_at_last_non_digit in H as [Hd Hp];
    [|reflexivity|apply pretty_nat_digits..].
  apply app_inv_tail in Hd. apply chars_inj in Hd, Hp.
  split; [exact Hd|]. now apply (inj pretty).
Qed.

Lemma entry_ids_elem item x :
  x ∈ entry_ids item ↔
  ∃ i, x = record_id (entry_doc_id item) i ∧ (i < length (entry_sections item))%nat.
Proof.
  unfold entry_ids. rewrite list_elem_of_fmap. split.
  - intros (i & -> & Hi). exists i. split; [reflexivity|].
    apply elem_of_seq in Hi. lia.
  - intros (i & -> & Hi). exists i. split; [reflexivity|].
    apply elem_of_seq. lia.
Qed.

Lemma queue_ids_elem q x :
  x ∈ queue_ids q ↔
  ∃ item i, item ∈ q ∧ x = record_id (entry_doc_id item) i
            ∧ (i < length (entry_sections item))%nat.
Proof.
  unfold queue_ids. rewrite list_elem_of_In, in_concat. split.
  - intros (l & Hl%list_elem_of_In & Hx%list_elem_of_In).
    apply list_elem_of_fmap in Hl as (item & -> & Hitem).
    apply entry_ids_elem in Hx as (i & -> & Hi). now exists item, i.
  - intros (item & i & Hitem & -> & Hi). exists (entry_ids item). split.
    + apply list_elem_of_In, list_elem_of_fmap. now exists item.
    + apply list_elem_of_In, entry_ids_elem. now exists i.
Qed.

Lemma entry_ids_NoDup item : NoDup (entry_ids item).
Proof.
  unfold entry_ids. apply NoDup_fmap_2; [|apply NoDup_seq].
  intros i j H. now apply record_id_inj in H.
Qed.

(** Entries with different doc_ids share no record id. *)
Lemma queue_ids_NoDup q : NoDup (entry_doc_id <$> q) → NoDup (queue_ids q).
Proof.
  induction q as [|item q IH]; intros Hq; [constructor|].
  cbn in Hq. apply NoDup_cons in Hq as [Hitem Hq].
  change (queue_ids (item :: q)) with (entry_ids item ++ queue_ids q).
  apply NoDup_app. split; [apply entry_ids_NoDup|]. split; [|now apply IH].
  intros x Hx Hx'. apply entry_ids_elem in Hx as (i & -> & _).
  apply queue_ids_elem in Hx' as (item' & j & Hin & Heq & _).
  apply record_id_inj in Heq as [Hd _]. apply Hitem.
  rewrite Hd. apply list_elem_of_fmap. now exists item'.
Qed.

Lemma section_records_ids env d idx k secs :
  (section_records env d idx k secs).*1 = record_id d <$> seq idx (length secs).
Proof.
  revert idx k. induction secs as [|sec secs IH]; intros idx k; [reflexivity|].
  cbn. now rewrite IH.
Qed.

Lemma queue_records_ids env k q : (queue_records env k q).*1 = queue_ids q.
Proof.
  revert k. induction q as [|item q IH]; intros k; [reflexivity|].
  cbn [queue_records]. rewrite fmap_app, IH, section_records_ids. reflexivity.
Qed.

Lemma section_records_elem env d idx k secs i sec :
  secs !! i = Some sec →
  (record_id d (idx + i),
   (content sec,
    mkMetadata d (title sec) (page sec) (isoformat env (now env (k + i)))))
  ∈ section_records env d idx k secs.
Proof.
  revert idx k i. induction secs as [|sec' secs IH]; intros idx k i H; [discriminate|].
  destruct i as [|i]; cbn in H.
  - injection H as ->. rewrite !Nat.add_0_r. left.
  - cbn [section_records]. right.
    replace (idx + S i)%nat with (S idx + i)%nat by lia.
    replace (k + S i)%nat with (S k + i)%nat by lia. now apply IH.
Qed.

Lemma queue_records_elem env k q item i sec :
  item ∈ q → entry_sections item !! i = Some sec →
  ∃ k', (record_id (entry_doc_id item) i,
         (content sec,
          mkMetadata (entry_doc_id item) (title sec) (page sec)
                     (isoformat env (now env k'))))
        ∈ queue_records env k q.
Proof.
  revert k. induction q as [|item' q IH]; intros k Hin Hsec.
  - inversion Hin.
  - cbn [queue_records]. apply elem_of_cons in Hin as [->|Hin].
    + exists (k + i)%nat. apply elem_of_app. left.
      apply (section_records_elem env _ 0 k _ i sec Hsec).
    + destruct (IH (k + length (entry_sections item'))%nat Hin Hsec) as [k' Hk'].
      exists k'. apply elem_of_app. now right.
Qed.

(** ** The store as a map keyed by record id *)

Lemma insert_all_cons r rs c : insert_all (r :: rs) c = insert_all rs (<[r.1 := r.2]> c).
Proof. reflexivity. Qed.

Lemma insert_all_dom rs (c : gmap string (string * Metadata)) :
  dom (insert_all rs c) = dom c ∪ list_to_set (rs.*1).
Proof.
  revert c. induction rs as [|r rs IH]; intros c.
  - cbn. set_solver.
  - rewrite insert_all_cons, IH, dom_insert_L. cbn. set_solver.
Qed.

Lemma insert_all_other rs (c : gmap string (string * Metadata)) i :
  i ∉ rs.*1 → insert_all rs c !! i = c !! i.
Proof.
  revert c. induction rs as [|r rs IH]; intros c Hi; [reflexivity|].
  cbn in Hi. apply not_elem_of_cons in Hi as [Hne Hi].
  rewrite insert_all_cons, IH by exact Hi. now apply lookup_insert_ne.
Qed.

Lemma insert_all_lookup rs (c : gmap string (string * Metadata)) i v :
  NoDup (rs.*1) → (i, v) ∈ rs → insert_all rs c !! i = Some v.
Proof.
  revert c. induction rs as [|r rs IH]; intros c Hnd Hin; [inversion Hin|].
  cbn in Hnd. apply NoDup_cons in Hnd as [Hr Hnd].
  rewrite insert_all_cons. apply elem_of_cons in Hin as [<-|Hin].
  - cbn. rewrite insert_all_other by exact Hr. apply lookup_insert_eq.
  - now apply IH.
Qed.

Lemma insert_all_size rs (c : gmap string (string * Metadata)) :
  list_to_set (rs.*1) ⊆ dom c → size (insert_all rs c) = size c.
Proof.
  intros Hsub. rewrite <- !size_dom, insert_all_dom. f_equal. set_solver.
Qed.

(** C2. In a successful flush the record built from section [i] of a queue
    entry is stored under the id [<doc_id>_section_<i>], which depends on
    the entry's doc_id and the index alone. The store holds one record per
    id: the flush adds exactly the ids of the queue to those present, and a
    flush whose ids are all present already leaves the number of records
    as it was, each id now holding the record just written. *)
Theorem flush_record_ids (env : Env) (s : State) :
  batch_queue s ≠ [] →
  add_fault env (tick s + total_sections (batch_queue s)) = None →
  ∃ s', _process_batch env s = (Ok tt, s')
    ∧ dom (collection s') = dom (collection s) ∪ list_to_set (queue_ids (batch_queue s))
    ∧ (∀ item i sec, item ∈ batch_queue s → entry_sections item !! i = Some sec →
         (entry_doc_id item +:+ "_section_" +:+ pretty i) ∈ dom (collection s'))
    ∧ (NoDup (entry_doc_id <$> batch_queue s) →
       ∀ item i sec, item ∈ batch_queue s → entry_sections item !! i = Some sec →
         ∃ stamp,
           collection s' !! (entry_doc_id item +:+ "_section_" +:+ pretty i)
           = Some (content sec,
                   mkMetadata (entry_doc_id item) (title sec) (page sec) stamp))
    ∧ (list_to_set (queue_ids (batch_queue s)) ⊆ dom (collection s) →
       size (collection s') = size (collection s)).
Proof.
  intros Hq Hadd. eexists. split; [apply (process_batch_success env s Hq Hadd)|].
  cbn [collection]. repeat split.
  - now rewrite insert_all_dom, queue_records_ids.
  - intros item i sec Hin Hsec. rewrite insert_all_dom, queue_records_ids.
    apply elem_of_union_r, elem_of_list_to_set, queue_ids_elem.
    exists item, i. repeat split; [exact Hin|].
    now apply lookup_lt_Some in Hsec.
  - intros Hnd item i sec Hin Hsec.
    destruct (queue_records_elem env (tick s) _ item i sec Hin Hsec) as [k' Hk'].
    exists (isoformat env (now env k')).
    apply insert_all_lookup; [|exact Hk'].
    rewrite queue_records_ids. now apply queue_ids_NoDup.
  - intros Hsub. apply insert_all_size. now rewrite queue_records_ids.
Qed.

Lemma flush_record_ids_witness :
  ∃ s1 s2,
    _process_batch sample_env sample_state = (Ok tt, s1)
    ∧ collection s1 !! "doc_spec_20240101_9f86d081_section_1"
      = Some ("Def text.",
              mkMetadata "doc_spec_20240101_9f86d081" "1.2 DEFINITIONS" 1 "2000000")
    ∧ size (collection s1) = 2%nat
    ∧ _process_batch sample_env (set_batch_queue [revised_entry] s1) = (Ok tt, s2)
    ∧ collection s2 !! "doc_spec_20240101_9f86d081_section_1"
      = Some ("Terms text.",
              mkMetadata "doc_spec_20240101_9f86d081" "1.2 TERMS" 2 "6000000")
    ∧ size (collection s2) = 2%nat.
Proof.
  destruct (flush_record_ids sample_env sample_state) as (s1 & Hrun1 & _);
    [discriminate|reflexivity|].
  destruct (flush_record_ids sample_env (set_batch_queue [revised_entry] s1))
    as (s2 & Hrun2 & _ & _ & Hrecord & Hsize); [discriminate|reflexivity|].
  exists s1, s2. split; [exact Hrun1|].
  vm_compute in Hrun1. injection Hrun1 as <-.
  split; [reflexivity|]. split; [reflexivity|]. split; [exact Hrun2|].
  split.
  - destruct (Hrecord ltac:(repeat constructor; set_solver) revised_entry 1%nat
                (mkSection "1.2 TERMS" "Terms text." 2)
                ltac:(left) eq_refl) as [stamp Hstamp].
    vm_compute in Hrun2. injection Hrun2 as <-. reflexivity.
  - rewrite Hsize; [reflexivity|]. vm_compute. set_solver.
Defined.

(** C3. A flush of a non-empty queue issues one insert. When the insert
    succeeds the queue is emptied and the clock reading taken after it
    becomes the last flush time; when it fails the exception reaches the
    caller and queue, last flush time and store are what they were. *)
Theorem flush_outcome (env : Env) (s : State) :
  batch_queue s ≠ [] →
  (add_fault env (tick s + total_sections (batch_queue s)) = None →
     ∃ s', _process_batch env s = (Ok tt, s')
       ∧ batch_queue s' = []
       ∧ last_process_time s'
         = now env (S (tick s + total_sections (batch_queue s)))
       ∧ add_calls s' = S (add_calls s))
  ∧ (∀ e, add_fault env (tick s + total_sections (batch_queue s)) = Some e →
     ∃ s', _process_batch env s = (Raise e, s')
       ∧ batch_queue s' = batch_queue s
       ∧ last_process_time s' = last_process_time s
       ∧ collection s' = collection s
       ∧ add_calls s' = S (add_calls s)).
Proof.
  intros Hq. split.
  - intros Hadd. eexists. split; [apply (process_batch_success env s Hq Hadd)|].
    repeat split.
  - intros e Hadd. eexists. split; [apply (process_batch_failure env s e Hq Hadd)|].
    repeat split.
Qed.

Lemma flush_outcome_witness :
  (∃ s', _process_batch sample_env sample_state = (Ok tt, s')
     ∧ batch_queue s' = [] ∧ last_process_time s' = 4000000)
  ∧ (∃ s', _process_batch failing_store_env sample_state
           = (Raise (Error "store unavailable"), s')
       ∧ batch_queue s' = [sample_entry] ∧ last_process_time s' = 0).
Proof.
  split.
  - destruct (flush_outcome sample_env sample_state) as [Hok _]; [discriminate|].
    destruct (Hok eq_refl) as (s' & Hrun & Hqueue & Htime & _).
    exists s'. repeat split; assumption.
  - destruct (flush_outcome failing_store_env sample_state) as [_ Hfail];
      [discriminate|].
    destruct (Hfail (Error "store unavailable") eq_refl)
      as (s' & Hrun & Hqueue & Htime & _).
    exists s'. repeat split; assumption.
Defined.

(** ** Enqueueing *)

Lemma add_sections_decision env doc_id sections s :
  add_sections env doc_id sections s
  = if BATCH_SIZE env <=? Z.of_nat (length (batch_queue (enqueued env doc_id sections s)))
    then _process_batch env (enqueued env doc_id sections s)
    else if 60 <? timedelta_seconds (now env (tick s + 2)) (last_process_time s)
         then _process_batch env (set_tick (tick s + 3) (enqueued env doc_id sections s))
         else (Ok tt, set_tick (tick s + 3) (enqueued env doc_id sections s)).
Proof.
  unfold add_sections, uuid4_hex8, datetime_now, bind, next_tick, modify, gets, ret.
  cbn [tick set_tick batch_queue set_batch_queue last_process_time fst snd].
  unfold enqueued.
  replace (tick s + 2)%nat with (S (S (tick s))) by lia.
  replace (tick s + 3)%nat with (S (S (S (tick s)))) by lia.
  cbn [tick set_tick batch_queue set_batch_queue last_process_time].
  destruct (BATCH_SIZE env <=? _); [reflexivity|].
  destruct (60 <? _); reflexivity.
Qed.

Lemma timedelta_seconds_over later earlier :
  61000000 ≤ later - earlier < 86400000000 →
  (60 <? timedelta_seconds later earlier) = true.
Proof.
  intros H. unfold timedelta_seconds. rewrite Z.mod_small by lia.
  apply Z.ltb_lt.
  assert (61 ≤ (later - earlier) / 1000000) by (apply Z.div_le_lower_bound; lia).
  lia.
Qed.

Lemma timedelta_seconds_within later earlier :
  0 ≤ later - earlier ≤ 60000000 →
  (60 <? timedelta_seconds later earlier) = false.
Proof.
  intros H. unfold timedelta_seconds. rewrite Z.mod_small by lia.
  apply Z.ltb_ge.
  assert ((later - earlier) / 1000000 ≤ 60000000 / 1000000)
    by (apply Z.div_le_mono; lia).
  change (60000000 / 1000000) with 60 in *. lia.
Qed.

Lemma enqueued_queue_length env doc_id sections s :
  length (batch_queue (enqueued env doc_id sections s))
  = S (length (batch_queue s)).
Proof. unfold enqueued. cbn. rewrite length_app. cbn. lia. Qed.

(** Uploads that fill the queue up to the batch size, all within a minute
    of the last flush, are flushed once, with the last of them. *)
Lemma enqueue_all_fills env uploads s :
  uploads ≠ [] →
  Z.of_nat (length (batch_queue s) + length uploads) = BATCH_SIZE env →
  (∀ k, add_fault env k = None) →
  (∀ k, (tick s ≤ k < tick s + 3 * length uploads)%nat →
        0 ≤ now env k - last_process_time s ≤ 60000000) →
  ∃ s', enqueue_all env uploads s = (Ok tt, s')
        ∧ batch_queue s' = [] ∧ add_calls s' = S (add_calls s).
Proof.
  revert s. induction uploads as [|[d secs] uploads IH]; intros s Hne Hlen Hadd Hclock;
    [congruence|].
  cbn [enqueue_all fst snd]. unfold bind. rewrite add_sections_decision.
  pose proof (enqueued_queue_length env d secs s) as Hq.
  destruct uploads as [|u uploads].
  - cbn [length] in Hlen.
    destruct (Z.leb_spec (BATCH_SIZE env)
                (Z.of_nat (length (batch_queue (enqueued env d secs s))))); [|lia].
    rewrite process_batch_success; [|intros E; rewrite E in Hq; discriminate|apply Hadd].
    cbn. eexists. repeat split.
  - cbn [length] in Hlen.
    destruct (Z.leb_spec (BATCH_SIZE env)
                (Z.of_nat (length (batch_queue (enqueued env d secs s))))); [lia|].
    rewrite timedelta_seconds_within by (apply Hclock; cbn [length]; lia).
    destruct (IH (set_tick (tick s + 3) (enqueued env d secs s)))
      as (s' & Hrun & Hempty & Hcalls).
    + discriminate.
    + cbn [batch_queue set_tick]. rewrite Hq. cbn [length]. lia.
    + exact Hadd.
    + intros k Hk. cbn [tick set_tick length] in Hk. apply Hclock.
      cbn [length]. lia.
    + exists s'. rewrite Hrun. repeat split; [exact Hempty|exact Hcalls].
Qed.

(** C4 (as amended). [add_sections] appends one entry and then either
    flushes or returns. It flushes
    when the queue has reached the batch size; below the batch size it
    flushes when at least 61 seconds and less than a day have passed since
    the last flush, and does not flush when at most 60 seconds have passed.
    Uploads that number the batch size (at least one), enqueued from an
    empty queue within a minute of the last flush while the store accepts
    the insert, cause exactly one insert and leave the queue empty.
    Flushing an empty queue changes nothing and calls no store. *)
Theorem enqueue_and_flush (env : Env) (doc_id : string) (sections : list Section)
    (s : State) (uploads : list (string * list Section)) :
  let s1 := enqueued env doc_id sections s in
  let elapsed := now env (tick s + 2) - last_process_time s in
  (∃ entry, batch_queue s1 = batch_queue s ++ [entry]
            ∧ entry_sections entry = sections)
  ∧ (add_sections env doc_id sections s = _process_batch env s1
     ∨ add_sections env doc_id sections s
       = _process_batch env (set_tick (tick s + 3) s1)
     ∨ add_sections env doc_id sections s = (Ok tt, set_tick (tick s + 3) s1))
  ∧ (BATCH_SIZE env ≤ Z.of_nat (length (batch_queue s1)) →
     add_sections env doc_id sections s = _process_batch env s1)
  ∧ (Z.of_nat (length (batch_queue s1)) < BATCH_SIZE env →
     61000000 ≤ elapsed < 86400000000 →
     add_sections env doc_id sections s
     = _process_batch env (set_tick (tick s + 3) s1))
  ∧ (Z.of_nat (length (batch_queue s1)) < BATCH_SIZE env →
     0 ≤ elapsed ≤ 60000000 →
     add_sections env doc_id sections s = (Ok tt, set_tick (tick s + 3) s1))
  ∧ (uploads ≠ [] → Z.of_nat (length uploads) = BATCH_SIZE env →
     batch_queue s = [] →
     (∀ k, add_fault env k = None) →
     (∀ k, (tick s ≤ k < tick s + 3 * length uploads)%nat →
           0 ≤ now env k - last_process_time s ≤ 60000000) →
     ∃ s', enqueue_all env uploads s = (Ok tt, s')
           ∧ batch_queue s' = [] ∧ add_calls s' = S (add_calls s))
  ∧ (batch_queue s = [] → _process_batch env s = (Ok tt, s)).
Proof.
  intros s1 elapsed. split; [|split; [|split; [|split; [|split; [|split]]]]].
  - eexists. split; reflexivity.
  - rewrite add_sections_decision. fold s1.
    destruct (BATCH_SIZE env <=? _); [now left|].
    destruct (60 <? _); [right; now left|right; now right].
  - intros H. rewrite add_sections_decision. fold s1.
    now destruct (Z.leb_spec (BATCH_SIZE env) (Z.of_nat (length (batch_queue s1)))); [|lia].
  - intros H He. rewrite add_sections_decision. fold s1.
    destruct (Z.leb_spec (BATCH_SIZE env) (Z.of_nat (length (batch_queue s1)))); [lia|].
    now rewrite timedelta_seconds_over.
  - intros H He. rewrite add_sections_decision. fold s1.
    destruct (Z.leb_spec (BATCH_SIZE env) (Z.of_nat (length (batch_queue s1)))); [lia|].
    now rewrite timedelta_seconds_within.
  - intros Hne Hlen Hq Hadd Hclock. apply enqueue_all_fills; try assumption.
    rewrite Hq. exact Hlen.
  - apply process_batch_empty.
Qed.

Lemma enqueue_and_flush_witness :
  (∃ s', add_sections small_batch_env "doc_spec_20240101" [] sample_state
         = (Ok tt, s') ∧ length (batch_queue s') = 2%nat)
  ∧ (∃ s', enqueue_all small_batch_env three_uploads idle_state = (Ok tt, s')
           ∧ batch_queue s' = [] ∧ add_calls s' = 1%nat)
  ∧ _process_batch small_batch_env idle_state = (Ok tt, idle_state).
Proof.
  destruct (enqueue_and_flush small_batch_env "doc_spec_20240101" [] sample_state [])
    as (_ & _ & _ & _ & Hwithin & _).
  destruct (enqueue_and_flush small_batch_env "d" [] idle_state three_uploads)
    as (_ & _ & _ & _ & _ & Hfill & Hempty).
  split; [|split].
  - eexists. split; [apply Hwithin; [cbn; lia|cbn; lia]|]. reflexivity.
  - apply Hfill; [discriminate|reflexivity|reflexivity|reflexivity|].
    intros k Hk. cbn in Hk |- *. lia.
  - apply Hempty. reflexivity.
Defined.

(** C4 as stated fails twice. A day and ten seconds after the last flush
    an upload below the batch size is not flushed; and ten uploads into an
    empty queue, the first of them 102 seconds after the last flush, leave
    nine entries queued: the first one is flushed alone by the time
    trigger. *)
Lemma enqueue_counterexample :
  (60000000 < now day_later_env (tick idle_state + 2) - last_process_time idle_state
   ∧ ∃ s', add_sections day_later_env "doc_spec_20240101" [] idle_state = (Ok tt, s')
           ∧ length (batch_queue s') = 1%nat
           ∧ add_calls s' = add_calls idle_state)
  ∧ (Z.of_nat (length ten_uploads) = BATCH_SIZE late_start_env
     ∧ batch_queue idle_state = []
     ∧ ∃ s', enqueue_all late_start_env ten_uploads idle_state = (Ok tt, s')
             ∧ length (batch_queue s') = 9%nat
             ∧ add_calls s' = 1%nat).
Proof.
  split.
  - split; [reflexivity|]. eexists. split; [vm_compute; reflexivity|]. split; reflexivity.
  - split; [reflexivity|]. split; [reflexivity|].
    eexists. split; [vm_compute; reflexivity|]. split; reflexivity.
Qed.

(** ** The Answer Engine *)

(** A query touches the clock and the cache only. *)
Lemma query_frame env question context s :
  let s' := (query env question context s).2 in
  history s' = history s ∧ batch_queue s' = batch_queue s
  ∧ collection s' = collection s ∧ last_process_time s' = last_process_time s
  ∧ add_calls s' = add_calls s.
Proof.
  unfold query, _generate_response, bind. step_m.
  destruct (redis_get_fault env (tick s)); [now cbn|]. cbn [fst snd].
  destruct (_ !! cache_key question) as [[a ttl]|]; [now cbn|]. cbn.
  destruct (query_outcome env _ question 3) as [results|]; [|now cbn].
  destruct (has_documents results); [|now cbn].
  destruct (_format_prompt question results context) as [prompt|]; [|now cbn].
  cbn. destruct (chat_completion env _ prompt) as [text|]; [|now cbn].
  destruct (first_list (metadatas results)) as [metas|]; [|now cbn].
  cbn. destruct (redis_set_fault env _); now cbn.
Qed.

Lemma has_documents_false results :
  has_documents results = false ↔
  documents results = [] ∨ ∃ rest, documents results = [] :: rest.
Proof.
  unfold has_documents. destruct (documents results) as [|[|d ds] rest]; split;
    try reflexivity; try (intros; discriminate).
  - now left.
  - intros _. right. now exists rest.
  - intros [H|[r H]]; discriminate.
Qed.

(** C5. On a cache miss, when the vector store returns no section, the
    answer is the canned message with no sources and the cache is left as
    it was: no entry is written for the question. *)
Theorem query_nothing_relevant (env : Env) (question : string)
    (context : option string) (s : State) (results : QueryResults) :
  redis_get_fault env (tick s) = None →
  redis s !! cache_key question = None →
  query_outcome env (S (tick s)) question 3 = Ok results →
  (documents results = [] ∨ ∃ rest, documents results = [] :: rest) →
  ∃ s', query env question context s
        = (Ok (mkAnswer
                 "I couldn't find anything relevant in the docs. Could you try rephrasing?"
                 []), s')
    ∧ redis s' = redis s
    ∧ redis s' !! ("query:" +:+ question) = None
    ∧ tick s' = (tick s + 2)%nat.
Proof.
  intros Hget Hmiss Hquery Hnone%has_documents_false.
  unfold query, bind. step_m. rewrite Hget. simp_state.
  rewrite Hmiss. simp_state. rewrite Hquery, Hnone.
  eexists. split; [reflexivity|]. simp_state. repeat split.
  - exact Hmiss.
  - lia.
Qed.

Lemma query_nothing_relevant_witness :
  ∃ s', query empty_results_env "Which paint?" None sample_state
        = (Ok nothing_relevant, s')
    ∧ redis s' = redis sample_state.
Proof.
  destruct (query_nothing_relevant empty_results_env "Which paint?" None
              sample_state (mkQueryResults [[]] [[]]))
    as (s' & Hrun & Hredis & _);
    [reflexivity|reflexivity|reflexivity|right; now exists []|].
  exists s'. split; assumption.
Defined.

(** C8. On a cache miss with sections retrieved, once the language model
    has answered and the cache has accepted the write, the sources of the
    answer are the title, page and doc_id of the retrieved metadata in the
    order of the vector store, and the answer is cached under
    ["query:" + question] for 300 seconds. *)
Theorem query_sources_and_cache (env : Env) (question : string)
    (context : option string) (s : State) (results : QueryResults)
    (prompt text : string) (metas : list Metadata) :
  redis_get_fault env (tick s) = None →
  redis s !! cache_key question = None →
  query_outcome env (S (tick s)) question 3 = Ok results →
  has_documents results = true →
  first_list (metadatas results) = Ok metas →
  _format_prompt question results context = Ok prompt →
  chat_completion env (S (S (tick s))) prompt = Ok text →
  redis_set_fault env (S (S (S (tick s)))) = None →
  let response :=
    mkAnswer text ((λ meta, mkSource (meta_title meta) (meta_page meta)
                                     (meta_doc_id meta)) <$> metas) in
  ∃ s', query env question context s = (Ok response, s')
    ∧ redis s' = <["query:" +:+ question := (response, 300)]> (redis s).
Proof.
  intros Hget Hmiss Hquery Hdocs Hmetas Hprompt Htext Hset response.
  unfold query, _generate_response, bind. step_m. rewrite Hget. simp_state.
  rewrite Hmiss. simp_state. rewrite Hquery, Hdocs, Hprompt.
  simp_state. rewrite Htext, Hmetas. simp_state. rewrite Hset.
  eexists. split; reflexivity.
Qed.

Lemma query_sources_and_cache_witness :
  ∃ s', query sample_env "How long does curing take?" None sample_state
        = (Ok (mkAnswer "Curing takes 28 days."
                 [ mkSource "3.1 CURING" 12 "doc_spec_20240101_9f86d081";
                   mkSource "3.2 FORMWORK" 13 "doc_spec_20240101_9f86d081" ]), s')
    ∧ redis s' !! "query:How long does curing take?"
      = Some (mkAnswer "Curing takes 28 days."
                [ mkSource "3.1 CURING" 12 "doc_spec_20240101_9f86d081";
                  mkSource "3.2 FORMWORK" 13 "doc_spec_20240101_9f86d081" ], 300).
Proof.
  edestruct (query_sources_and_cache sample_env "How long does curing take?" None
               sample_state sample_results)
    as (s' & Hrun & Hredis);
    [reflexivity|reflexivity|reflexivity|reflexivity|reflexivity|reflexivity
    |reflexivity|reflexivity|].
  exists s'. split; [exact Hrun|]. rewrite Hredis. apply lookup_insert_eq.
Defined.

(** ** The Conversation Window *)

Lemma last_n_all {A} n (l : list A) : (length l ≤ n)%nat → Py.last_n n l = l.
Proof. intros H. unfold Py.last_n. now replace (length l - n)%nat with 0%nat by lia. Qed.

Lemma last_n_length {A} n (l : list A) : (length (Py.last_n n l) ≤ n)%nat.
Proof. unfold Py.last_n. rewrite length_drop. lia. Qed.

Lemma last_n_fmap {A B} (f : A → B) n (l : list A) :
  f <$> Py.last_n n l = Py.last_n n (f <$> l).
Proof. unfold Py.last_n. now rewrite fmap_drop, length_fmap. Qed.

(** Keeping the last [n] after every addition is keeping the last [n]. *)
Lemma last_n_app_last_n {A} n (l k : list A) :
  Py.last_n n (Py.last_n n l ++ k) = Py.last_n n (l ++ k).
Proof.
  unfold Py.last_n. destruct (decide (length l ≤ n)%nat) as [Hle|Hgt].
  - now replace (length l - n)%nat with 0%nat by lia.
  - rewrite <- (drop_app_le l k (length l - n)) by lia.
    rewrite drop_drop. f_equal.
    rewrite length_drop, !length_app. lia.
Qed.

Lemma last_n_last_n {A} n m (l : list A) :
  (n ≤ m)%nat → Py.last_n n (Py.last_n m l) = Py.last_n n l.
Proof.
  intros H. unfold Py.last_n. rewrite drop_drop, length_drop. f_equal. lia.
Qed.

Lemma trim_last_5 (h : list Exchange) (entry : Exchange) :
  (length h ≤ 5)%nat → trim (h ++ [entry]) = Py.last_n 5 (h ++ [entry]).
Proof.
  intros H. unfold trim, Py.last_n. rewrite length_app. cbn [length].
  destruct (Nat.ltb_spec 5 (length h + 1)).
  - f_equal. lia.
  - now replace (length h + 1 - 5)%nat with 0%nat by lia.
Qed.

(** The context of the code is the context of the specification. *)
Lemma context_of_rendered (h : list Exchange) :
  context_of h = rendered (qa <$> h).
Proof.
  destruct h as [|entry h]; [reflexivity|].
  unfold context_of, rendered, _get_context. cbn [fmap list_fmap].
  do 3 f_equal. change (qa entry :: (qa <$> h)) with (qa <$> (entry :: h)).
  rewrite <- last_n_fmap, <- list_fmap_compose. reflexivity.
Qed.

(** A successful turn is a successful query followed by one addition to
    the history; a failed turn is a failed query. *)
Lemma chat_outcome env message s :
  match query env message (context_of (history s)) s with
  | (Ok response, s0) =>
      chat env message s
      = (Ok response,
         set_history
           (trim (history s ++ [mkExchange message (answer response)
                                           (isoformat env (now env (tick s0)))]))
           (set_tick (S (tick s0)) s0))
  | (Raise e, s0) => chat env message s = (Raise e, s0)
  end.
Proof.
  pose proof (query_frame env message (context_of (history s)) s) as (Hh & _).
  unfold chat, bind, gets. cbv beta.
  destruct (query env message (context_of (history s)) s) as [[response|e] s0];
    [|reflexivity].
  cbn [snd] in Hh. step_m. now rewrite Hh.
Qed.

(** C10. When the query of a chat turn raises, [chat] raises the same
    exception and the history is what it was before the turn. *)
Theorem chat_failure_keeps_history (env : Env) (message : string) (s s0 : State)
    (e : Exception) :
  query env message (context_of (history s)) s = (Raise e, s0) →
  chat env message s = (Raise e, s0) ∧ history s0 = history s.
Proof.
  intros H. pose proof (chat_outcome env message s) as Hc. rewrite H in Hc.
  split; [exact Hc|].
  pose proof (query_frame env message (context_of (history s)) s) as (Hh & _).
  now rewrite H in Hh.
Qed.

Lemma chat_failure_keeps_history_witness :
  ∃ s0, chat failing_query_env "How long does curing take?" sample_state
        = (Raise (Error "store unavailable"), s0)
    ∧ history s0 = history sample_state.
Proof.
  eexists.
  apply (chat_failure_keeps_history failing_query_env "How long does curing take?"
           sample_state).
  reflexivity.
Defined.

Lemma rendered_last_5 (pairs : list (string * string)) :
  rendered (Py.last_n 5 pairs) = rendered pairs.
Proof.
  destruct (decide (length pairs ≤ 5)%nat) as [Hle|Hgt].
  - now rewrite last_n_all.
  - pose proof (last_n_last_n 2 5 pairs ltac:(lia)) as H2.
    assert (Hlen : length (Py.last_n 5 pairs) = 5%nat)
      by (unfold Py.last_n; rewrite length_drop; lia).
    unfold rendered.
    destruct (Py.last_n 5 pairs) as [|p l] eqn:E5; [discriminate|].
    destruct pairs as [|p' l']; [cbn in Hgt; lia|].
    now rewrite H2.
Qed.

(** C9. Over any run of chat turns from a history of at most five
    exchanges, every successful turn adds its exchange at the end and the
    history stays within five, the oldest going first: it is the last five
    of everything recorded, so after seven exchanges from an empty history
    the last five remain. The context handed to the next query is absent
    when nothing is recorded and otherwise the preamble line followed by
    the Q:/A: pairs of the last two exchanges. *)
Theorem conversation_window (env : Env) (s s' : State)
    (pairs : list (string * string)) :
  turns env s pairs s' →
  (length (history s) ≤ 5)%nat →
  (length (history s') ≤ 5)%nat
  ∧ qa <$> history s' = Py.last_n 5 ((qa <$> history s) ++ pairs)
  ∧ context_of (history s') = rendered ((qa <$> history s) ++ pairs)
  ∧ (history s = [] → length pairs = 7%nat →
     qa <$> history s' = drop 2 pairs ∧ length (history s') = 5%nat).
Proof.
  intros Hrun Hlen.
  assert (Hkeep : qa <$> history s' = Py.last_n 5 ((qa <$> history s) ++ pairs)).
  { induction Hrun as [s|s message response s1 pairs s2 Hchat Hrun IH
                       |s message e s1 pairs s2 Hchat Hrun IH].
    - rewrite app_nil_r, last_n_all; [reflexivity|now rewrite length_fmap].
    - pose proof (chat_outcome env message s) as Hc.
      destruct (query env message (context_of (history s)) s) as [[r|e] s0];
        rewrite Hchat in Hc; [|discriminate].
      injection Hc as -> ->. cbn [history set_history set_tick] in IH.
      rewrite trim_last_5 in IH by exact Hlen.
      rewrite IH by apply last_n_length.
      rewrite last_n_fmap, fmap_app, last_n_app_last_n, <- app_assoc. reflexivity.
    - pose proof (chat_failure_keeps_history env message s s1 e) as Hf.
      pose proof (chat_outcome env message s) as Hc.
      destruct (query env message (context_of (history s)) s) as [[r|e'] s0];
        rewrite Hchat in Hc; [discriminate|].
      injection Hc as -> ->. destruct (Hf eq_refl) as [_ Hh].
      rewrite Hh in IH. now apply IH. }
  assert (Hbound : (length (history s') ≤ 5)%nat).
  { rewrite <- (length_fmap qa), Hkeep. apply last_n_length. }
  split; [exact Hbound|]. split; [exact Hkeep|]. split.
  - now rewrite context_of_rendered, Hkeep, rendered_last_5.
  - intros Hempty H7. rewrite Hempty in Hkeep. cbn [fmap list_fmap app] in Hkeep.
    assert (Hdrop : qa <$> history s' = drop 2 pairs)
      by (rewrite Hkeep; unfold Py.last_n; now rewrite H7).
    split; [exact Hdrop|].
    rewrite <- (length_fmap qa), Hdrop, length_drop. lia.
Qed.

Lemma conversation_window_witness :
  ∃ s', turns sample_env (init sample_env) seven_pairs s'
    ∧ qa <$> history s' = drop 2 seven_pairs
    ∧ context_of (history s')
      = Some ("Recent conversation:" +:+ Py.NL
              +:+ "Q: q6" +:+ Py.NL +:+ "A: Curing takes 28 days." +:+ Py.NL +:+ Py.NL
              +:+ "Q: q7" +:+ Py.NL +:+ "A: Curing takes 28 days." +:+ Py.NL).
Proof.
  assert (Hrun : ∃ s', turns sample_env (init sample_env) seven_pairs s').
  { eexists. unfold seven_pairs, seven_questions. cbn [fmap list_fmap].
    do 7 answered_turn. apply turns_done. }
  destruct Hrun as [s' Hrun]. exists s'. split; [exact Hrun|].
  destruct (conversation_window sample_env (init sample_env) s' seven_pairs Hrun)
    as (_ & _ & Hcontext & Hlast); [cbn; lia|].
  split; [now apply Hlast|]. rewrite Hcontext. reflexivity.
Defined.

(** * Further properties of the code *)

(** ** Sectioning: what every page yields *)

Lemma run_feed page_num lines st :
  run page_num lines st = fold_left (feed page_num) (kept_lines lines) st.
Proof.
  revert st. induction lines as [|raw lines IH]; intros st; [reflexivity|].
  change (run page_num (raw :: lines) st)
    with (run page_num lines (step page_num st raw)).
  rewrite IH. unfold kept_lines. cbn [fmap list_fmap List.filter].
  unfold step. destruct (Py.nonempty (Py.strip raw)); reflexivity.
Qed.

Lemma concat_str_app l k : concat_str (l ++ k) = concat_str l +:+ concat_str k.
Proof.
  induction l as [|s l IH]; [reflexivity|].
  cbn [app concat_str]. now rewrite IH, app_assoc_str.
Qed.

Lemma held_text_save st :
  concat_str (content <$> save st) = held_text st.
Proof.
  unfold save, held_text. destruct (content (current_section st)) eqn:E.
  - cbn [Py.nonempty]. now rewrite app_nil_r_str.
  - cbn [Py.nonempty]. rewrite fmap_app, concat_str_app. cbn [fmap list_fmap concat_str].
    now rewrite E, app_nil_r_str.
Qed.

Lemma held_text_feed page_num st line :
  held_text (feed page_num st line)
  = held_text st +:+ (if _is_section_header line then "" else line +:+ Py.NL).
Proof.
  unfold feed. destruct (_is_section_header line).
  - unfold held_text at 1. cbn [sections current_section content].
    now rewrite held_text_save, !app_nil_r_str.
  - unfold held_text. cbn [sections current_section content].
    now rewrite app_assoc_str.
Qed.

Lemma held_text_fold page_num kept st :
  held_text (fold_left (feed page_num) kept st)
  = held_text st
    +:+ newline_terminated
          (List.filter (λ line, negb (_is_section_header line)) kept).
Proof.
  revert st. induction kept as [|line kept IH]; intros st.
  - cbn. now rewrite app_nil_r_str.
  - cbn [fold_left List.filter]. rewrite IH, held_text_feed.
    destruct (_is_section_header line); cbn [negb newline_terminated].
    + now rewrite app_nil_r_str.
    + now rewrite !app_assoc_str.
Qed.

(** X1. No body line is lost, repeated or moved: the contents of the
    sections of a page, one after the other, are the stripped non-blank
    lines of the page that are not headers, in order, each followed by a
    newline. *)
Theorem sections_keep_the_body (text : string) (page_num : Z) :
  concat_str (content <$> _split_into_sections text page_num)
  = newline_terminated (body_lines (Py.split_nl text)).
Proof.
  unfold _split_into_sections, split_lines. rewrite held_text_save, run_feed.
  rewrite held_text_fold. reflexivity.
Qed.

Lemma loop_invariant_start page_num : loop_invariant page_num (start page_num).
Proof.
  unfold loop_invariant, start. cbn. repeat split; try constructor; auto.
Qed.

Lemma save_well_formed page_num st :
  loop_invariant page_num st →
  Forall (well_formed page_num) (save st)
  ∧ Forall (λ s, title s ≠ "") (drop 1 (save st)).
Proof.
  intros (Hsecs & Hpage & Htitle & Hfirst & Hrest). unfold save.
  destruct (content (current_section st)) eqn:E; cbn [Py.nonempty]; [now split|].
  split.
  - apply Forall_app. split; [exact Hsecs|]. constructor; [|constructor].
    unfold well_formed. rewrite E. repeat split; [discriminate|exact Hpage|exact Htitle].
  - destruct (sections st) as [|s0 secs] eqn:Es; [constructor|].
    cbn [app drop] in *. rewrite drop_0 in *.
    apply Forall_app. split; [exact Hrest|]. constructor; [|constructor].
    intros Ht. specialize (Hfirst Ht). discriminate.
Qed.

Lemma loop_invariant_feed page_num st line :
  loop_invariant page_num st → loop_invariant page_num (feed page_num st line).
Proof.
  intros Hinv. pose proof (save_well_formed page_num st Hinv) as [Hsave Hrest].
  destruct Hinv as (Hsecs & Hpage & Htitle & Hfirst & Hrest').
  unfold feed. destruct (_is_section_header line) eqn:Hh.
  - unfold loop_invariant. cbn [sections current_section title page].
    repeat split; try assumption.
    + now right.
    + intros ->. discriminate.
  - unfold loop_invariant. cbn [sections current_section title page].
    repeat split; assumption.
Qed.

Lemma loop_invariant_fold page_num kept st :
  loop_invariant page_num st →
  loop_invariant page_num (fold_left (feed page_num) kept st).
Proof.
  revert st. induction kept as [|line kept IH]; intros st H; [exact H|].
  cbn [fold_left]. apply IH. now apply loop_invariant_feed.
Qed.

(** X2. Every section of a page has content, carries the page number it
    was given, and is titled by a header line, except that the first one
    may have the empty title (the text before the first header). *)
Theorem sections_are_well_formed (text : string) (page_num : Z) :
  Forall (λ s, content s ≠ "" ∧ page s = page_num
               ∧ (title s = "" ∨ _is_section_header (title s) = true))
         (_split_into_sections text page_num)
  ∧ Forall (λ s, _is_section_header (title s) = true)
           (drop 1 (_split_into_sections text page_num)).
Proof.
  unfold _split_into_sections, split_lines. rewrite run_feed.
  pose proof (loop_invariant_fold page_num (kept_lines (Py.split_nl text)) _
                (loop_invariant_start page_num)) as Hinv.
  destruct (save_well_formed page_num _ Hinv) as [Hwf Hrest].
  split; [exact Hwf|].
  set (result := save _) in *.
  assert (Hwf' : Forall (well_formed page_num) (drop 1 result))
    by (apply Forall_drop; exact Hwf).
  induction (drop 1 result) as [|s l IH]; [constructor|].
  apply Forall_cons in Hwf' as [(_ & _ & Ht) Hwf'].
  apply Forall_cons in Hrest as [Hne Hrest].
  constructor; [|now apply IH]. destruct Ht; [contradiction|assumption].
Qed.

Lemma titles_save st :
  List.filter Py.nonempty (title <$> save st) `sublist_of` held_titles st.
Proof.
  unfold save, held_titles. destruct (Py.nonempty (content (current_section st))).
  - reflexivity.
  - rewrite fmap_app, List.filter_app. apply sublist_inserts_r. reflexivity.
Qed.

Lemma held_titles_feed page_num st line :
  held_titles (feed page_num st line)
  `sublist_of` held_titles st ++ (if _is_section_header line then [line] else []).
Proof.
  unfold feed. destruct (_is_section_header line) eqn:Hh.
  - unfold held_titles at 1. cbn [sections current_section].
    rewrite fmap_app, List.filter_app. cbn [fmap list_fmap title List.filter].
    rewrite (header_is_not_blank _ Hh).
    apply sublist_app; [apply titles_save|reflexivity].
  - rewrite app_nil_r. unfold held_titles. cbn [sections current_section].
    rewrite !fmap_app. cbn [fmap list_fmap title]. reflexivity.
Qed.

Lemma held_titles_fold page_num kept st :
  held_titles (fold_left (feed page_num) kept st)
  `sublist_of` held_titles st ++ List.filter _is_section_header kept.
Proof.
  revert st. induction kept as [|line kept IH]; intros st.
  - cbn. now rewrite app_nil_r.
  - cbn [fold_left List.filter]. etrans; [apply IH|].
    etrans; [apply sublist_app; [apply held_titles_feed|reflexivity]|].
    rewrite <- app_assoc. apply sublist_app; [reflexivity|].
    destruct (_is_section_header line); reflexivity.
Qed.

(** X3. The titles of the sections of a page are header lines of the
    page, in the order of the page, each header titling at most one
    section; so a page has at most one section more than it has header
    lines. *)
Theorem titles_are_headers_in_order (text : string) (page_num : Z) :
  List.filter Py.nonempty (title <$> _split_into_sections text page_num)
    `sublist_of` header_lines (Py.split_nl text)
  ∧ (length (_split_into_sections text page_num)
     ≤ S (length (header_lines (Py.split_nl text))))%nat.
Proof.
  assert (Hsub : List.filter Py.nonempty (title <$> _split_into_sections text page_num)
                 `sublist_of` header_lines (Py.split_nl text)).
  { unfold _split_into_sections, split_lines. rewrite run_feed.
    etrans; [apply titles_save|]. etrans; [apply held_titles_fold|]. reflexivity. }
  split; [exact Hsub|].
  apply sublist_length in Hsub.
  destruct (sections_are_well_formed text page_num) as [_ Hrest].
  destruct (_split_into_sections text page_num) as [|s0 rest]; [cbn; lia|].
  cbn [drop] in Hrest. rewrite drop_0 in Hrest.
  assert (Hall : List.filter Py.nonempty (title <$> rest) = title <$> rest).
  { clear Hsub. induction rest as [|s rest IH]; [reflexivity|].
    apply Forall_cons in Hrest as [Hs Hrest]. cbn [fmap list_fmap List.filter].
    rewrite (header_is_not_blank _ Hs). f_equal. now apply IH. }
  cbn [fmap list_fmap List.filter length] in Hsub |- *.
  destruct (Py.nonempty (title s0)); cbn [length] in Hsub;
    rewrite Hall, length_fmap in Hsub; lia.
Qed.

(** X4. Sectioning sees a page through its stripped non-blank lines only:
    indentation, trailing blanks and blank lines make no difference. *)
Theorem sections_ignore_blank_space (text1 text2 : string) (page_num : Z) :
  kept_lines (Py.split_nl text1) = kept_lines (Py.split_nl text2) →
  _split_into_sections text1 page_num = _split_into_sections text2 page_num.
Proof.
  intros H. unfold _split_into_sections, split_lines. now rewrite !run_feed, H.
Qed.

Lemma sections_ignore_blank_space_witness :
  _split_into_sections
    ("1.1 GENERAL" +:+ Py.NL +:+ "Scope text.") 4
  = _split_into_sections
      (Py.NL +:+ "   1.1 GENERAL  " +:+ Py.NL +:+ Py.NL +:+ " Scope text." +:+ Py.NL) 4.
Proof. apply sections_ignore_blank_space. reflexivity. Defined.

(** ** Header patterns look at the start of a line *)

Lemma one_app p s r t : Re.one p s = Some r → Re.one p (s +:+ t) = Some (r +:+ t).
Proof.
  destruct s as [|c s]; [discriminate|]. cbn [Re.one].
  change (String c s +:+ t) with (String c (s +:+ t)). cbn [Re.one].
  destruct (p c); [|discriminate]. now intros [= ->].
Qed.

Lemma one_rest_nonempty p s r : Re.one p s = Some r → s ≠ "".
Proof. destruct s; [discriminate|]. intros _. discriminate. Qed.

Lemma many1_rest_nonempty p s r : Re.many1 p s = Some r → s ≠ "".
Proof. destruct s; [discriminate|]. intros _. discriminate. Qed.

Lemma lit_app w s r t : Re.lit w s = Some r → Re.lit w (s +:+ t) = Some (r +:+ t).
Proof.
  revert s. induction w as [|a w IH]; intros s.
  - cbn. now intros [= ->].
  - destruct s as [|c s]; [discriminate|].
    change (String c s +:+ t) with (String c (s +:+ t)). cbn [Re.lit].
    destruct (Ascii.eqb a c); [apply IH|discriminate].
Qed.

Lemma skip_app p a t :
  Re.skip p (a +:+ t)
  = match Re.skip p a with
    | "" => Re.skip p t
    | r => r +:+ t
    end.
Proof.
  induction a as [|c a IH]; [reflexivity|].
  change (String c a +:+ t) with (String c (a +:+ t)). cbn [Re.skip].
  destruct (p c); [exact IH|reflexivity].
Qed.

Lemma many1_app p s r t :
  Re.many1 p s = Some r → r ≠ "" → Re.many1 p (s +:+ t) = Some (r +:+ t).
Proof.
  unfold Re.many1. destruct s as [|c s]; [discriminate|].
  change (String c s +:+ t) with (String c (s +:+ t)). cbn [Re.one].
  destruct (p c); [|discriminate]. cbn [fmap option_fmap option_map].
  intros [= <-] Hne. rewrite skip_app. now destruct (Re.skip p s).
Qed.

Lemma many1_app_some p s r t :
  Re.many1 p s = Some r → is_Some (Re.many1 p (s +:+ t)).
Proof.
  unfold Re.many1. destruct s as [|c s]; [discriminate|].
  change (String c s +:+ t) with (String c (s +:+ t)). cbn [Re.one].
  destruct (p c); [|discriminate]. intros _. eexists. reflexivity.
Qed.

Lemma matches_is_Some o : Re.matches o = true ↔ is_Some o.
Proof.
  destruct o; cbn; split; intros H; try done; try (destruct H; discriminate); eauto.
Qed.

Lemma numbered_subsection_app s t :
  is_Some (Re.numbered_subsection s) → is_Some (Re.numbered_subsection (s +:+ t)).
Proof.
  unfold Re.numbered_subsection. intros [r5 H5].
  last_item H5 as r4 H4. last_item H4 as r3 H3. last_item H3 as r2 H2.
  last_item H2 as r1 H1. unfold Re.chr in *.
  rewrite (many1_app _ _ _ t H1) by (eapply one_rest_nonempty; exact H2).
  cbn [Re.seq]. rewrite (one_app _ _ _ t H2). cbn [Re.seq].
  rewrite (many1_app _ _ _ t H3) by (eapply many1_rest_nonempty; exact H4).
  cbn [Re.seq].
  rewrite (many1_app _ _ _ t H4) by (eapply one_rest_nonempty; exact H5).
  cbn [Re.seq]. rewrite (one_app _ _ _ t H5). eauto.
Qed.

Lemma section_keyword_app s t :
  is_Some (Re.section_keyword s) → is_Some (Re.section_keyword (s +:+ t)).
Proof.
  unfold Re.section_keyword. intros [r4 H4].
  last_item H4 as r3 H3. last_item H3 as r2 H2. last_item H2 as r1 H1.
  rewrite (lit_app _ _ _ t H1). cbn [Re.seq].
  rewrite (many1_app _ _ _ t H2) by (eapply one_rest_nonempty; exact H3).
  cbn [Re.seq]. rewrite (one_app _ _ _ t H3). cbn [Re.seq].
  rewrite (one_app _ _ _ t H4). eauto.
Qed.

Lemma article_keyword_app s t :
  is_Some (Re.article_keyword s) → is_Some (Re.article_keyword (s +:+ t)).
Proof.
  unfold Re.article_keyword. intros [r3 H3].
  last_item H3 as r2 H2. last_item H2 as r1 H1.
  rewrite (lit_app _ _ _ t H1). cbn [Re.seq].
  rewrite (many1_app _ _ _ t H2) by (eapply many1_rest_nonempty; exact H3).
  cbn [Re.seq]. eapply many1_app_some, H3.
Qed.

Lemma numbered_section_app s t :
  is_Some (Re.numbered_section s) → is_Some (Re.numbered_section (s +:+ t)).
Proof.
  unfold Re.numbered_section. intros [r4 H4].
  last_item H4 as r3 H3. last_item H3 as r2 H2. last_item H2 as r1 H1.
  unfold Re.chr in *.
  rewrite (many1_app _ _ _ t H1) by (eapply one_rest_nonempty; exact H2).
  cbn [Re.seq]. rewrite (one_app _ _ _ t H2). cbn [Re.seq].
  rewrite (many1_app _ _ _ t H3) by (eapply one_rest_nonempty; exact H4).
  cbn [Re.seq]. rewrite (one_app _ _ _ t H4). eauto.
Qed.

(** X5. The header test reads the start of a line only: whatever follows
    a header leaves it a header, so a sentence of body text that begins
    like one is taken for a header. *)
Theorem header_by_its_start (line rest : string) :
  _is_section_header line = true → _is_section_header (line +:+ rest) = true.
Proof.
  unfold _is_section_header. rewrite !orb_true_iff, !matches_is_Some.
  intros [[[H|H]|H]|H].
  - do 3 left. now apply numbered_subsection_app.
  - do 2 left. right. now apply section_keyword_app.
  - left. right. now apply article_keyword_app.
  - right. now apply numbered_section_app.
Qed.

Lemma header_by_its_start_witness :
  _is_section_header "2. The contractor shall remove all formwork." = true.
Proof.
  apply (header_by_its_start "2. T" "he contractor shall remove all formwork.").
  reflexivity.
Defined.

(** ** Texts of page ranges *)

Lemma page_texts_range document (first : Z) (count : nat) :
  1 ≤ first →
  first - 1 + Z.of_nat count ≤ FitzPDFHandler.number_of_pages document →
  PDF.page_texts document (seqZ first (Z.of_nat count))
  = Ok (take count (drop (Z.to_nat (first - 1)) document)).
Proof.
  revert first. induction count as [|count IH]; intros first H1 Hn.
  - now rewrite take_0.
  - rewrite seqZ_cons by lia. cbn [PDF.page_texts].
    destruct (get_page_text_in_range document first) as (text & Htext & ->); [lia|].
    replace (Z.pred (Z.of_nat (S count))) with (Z.of_nat count) by lia.
    rewrite IH by lia.
    replace (Z.to_nat (Z.succ first - 1)) with (S (Z.to_nat (first - 1))) by lia.
    rewrite (drop_S _ _ _ Htext). reflexivity.
Qed.

(** X6. [extract_section_text] raises ValueError "Invalid page range"
    exactly when the range starts below page 1, ends after the last page
    or ends before it starts; otherwise it returns the texts of the pages
    from [start_page] to [end_page], joined by newlines. *)
Theorem extract_section_text_range (document : list string) (start_page end_page : Z) :
  (1 ≤ start_page ≤ end_page
   ∧ end_page ≤ FitzPDFHandler.number_of_pages document →
   PDF.extract_section_text document start_page end_page
   = Ok (Py.join Py.NL
           (take (Z.to_nat (end_page - start_page + 1))
                 (drop (Z.to_nat (start_page - 1)) document))))
  ∧ (¬ (1 ≤ start_page ≤ end_page
        ∧ end_page ≤ FitzPDFHandler.number_of_pages document) →
     PDF.extract_section_text document start_page end_page
     = Raise (ValueError "Invalid page range")).
Proof.
  unfold PDF.extract_section_text. split; intros H.
  - destruct (Z.ltb_spec start_page 1); [lia|].
    destruct (Z.ltb_spec (FitzPDFHandler.number_of_pages document) end_page); [lia|].
    destruct (Z.ltb_spec end_page start_page); [lia|]. cbn [orb].
    unfold py_range.
    replace (end_page + 1 - start_page)
      with (Z.of_nat (Z.to_nat (end_page - start_page + 1))) by lia.
    rewrite page_texts_range by lia. reflexivity.
  - destruct (Z.ltb_spec start_page 1); [reflexivity|].
    destruct (Z.ltb_spec (FitzPDFHandler.number_of_pages document) end_page);
      [reflexivity|].
    destruct (Z.ltb_spec end_page start_page); [reflexivity|]. lia.
Qed.

Lemma extract_section_text_range_witness :
  PDF.extract_section_text ["one"; "two"; "three"] 2 3
  = Ok ("two" +:+ Py.NL +:+ "three")
  ∧ PDF.extract_section_text ["one"; "two"; "three"] 0 2
    = Raise (ValueError "Invalid page range").
Proof.
  destruct (extract_section_text_range ["one"; "two"; "three"] 2 3) as [Hin _].
  destruct (extract_section_text_range ["one"; "two"; "three"] 0 2) as [_ Hout].
  split; [apply Hin|apply Hout]; unfold FitzPDFHandler.number_of_pages; simpl; lia.
Defined.

(** X7. [get_document_text] never raises: it is the texts of all pages
    joined by newlines, the empty string for a document without pages. On
    a document with pages it agrees with [extract_section_text] over the
    whole range. *)
Theorem get_document_text_all_pages (document : list string) :
  PDF.get_document_text document = Ok (Py.join Py.NL document)
  ∧ (document ≠ [] →
     PDF.extract_section_text document 1 (FitzPDFHandler.number_of_pages document)
     = PDF.get_document_text document).
Proof.
  assert (Hall : PDF.page_texts document
                   (py_range 1 (FitzPDFHandler.number_of_pages document + 1))
                 = Ok document).
  { unfold py_range, FitzPDFHandler.number_of_pages.
    replace (Z.of_nat (length document) + 1 - 1) with (Z.of_nat (length document)) by lia.
    rewrite page_texts_range; [|lia|unfold FitzPDFHandler.number_of_pages; lia].
    change (Z.to_nat (1 - 1)) with 0%nat. rewrite drop_0.
    now rewrite take_ge by reflexivity. }
  split.
  - unfold PDF.get_document_text. now rewrite Hall.
  - intros Hne. unfold PDF.get_document_text, PDF.extract_section_text.
    rewrite Hall. cbn [Z.ltb Z.compare orb].
    assert (0 < FitzPDFHandler.number_of_pages document)
      by (unfold FitzPDFHandler.number_of_pages; destruct document; [congruence|cbn; lia]).
    destruct (Z.ltb_spec (FitzPDFHandler.number_of_pages document)
                (FitzPDFHandler.number_of_pages document)); [lia|].
    destruct (Z.ltb_spec (FitzPDFHandler.number_of_pages document) 1); [lia|].
    reflexivity.
Qed.

Lemma get_document_text_all_pages_witness :
  PDF.extract_section_text ["one"; "two"] 1 2 = PDF.get_document_text ["one"; "two"].
Proof.
  destruct (get_document_text_all_pages ["one"; "two"]) as [_ H].
  apply H. discriminate.
Defined.

(** ** Processing a document *)

Lemma page_sections_range document (first : Z) (count : nat) acc :
  1 ≤ first →
  first - 1 + Z.of_nat count ≤ FitzPDFHandler.number_of_pages document →
  Documents.page_sections document (seqZ first (Z.of_nat count)) acc
  = Ok (acc ++ sections_from first
                 (take count (drop (Z.to_nat (first - 1)) document))).
Proof.
  revert first acc. induction count as [|count IH]; intros first acc H1 Hn.
  - rewrite take_0. cbn. now rewrite app_nil_r.
  - rewrite seqZ_cons by lia. cbn [Documents.page_sections].
    destruct (get_page_text_in_range document first) as (text & Htext & ->); [lia|].
    replace (Z.pred (Z.of_nat (S count))) with (Z.of_nat count) by lia.
    rewrite IH by lia.
    replace (Z.to_nat (Z.succ first - 1)) with (S (Z.to_nat (first - 1))) by lia.
    rewrite (drop_S _ _ _ Htext). cbn [take sections_from].
    rewrite <- app_assoc. repeat f_equal; lia.
Qed.

Lemma dict_get_set {V} key (value : V) d :
  Documents.dict_get key (Documents.dict_set key value d) = Some value.
Proof.
  induction d as [|[k v] d IH]; cbn.
  - now rewrite String.eqb_refl.
  - destruct (String.eqb k key) eqn:E; cbn; rewrite E; [reflexivity|exact IH].
Qed.

Lemma dict_get_set_other {V} key key' (value : V) d :
  key' ≠ key →
  Documents.dict_get key' (Documents.dict_set key value d) = Documents.dict_get key' d.
Proof.
  intros Hne. induction d as [|[k v] d IH]; cbn.
  - destruct (String.eqb_spec key key'); [congruence|reflexivity].
  - destruct (String.eqb_spec k key) as [->|Hk]; cbn.
    + destruct (String.eqb_spec key key'); [congruence|reflexivity].
    + destruct (String.eqb k key'); [reflexivity|exact IH].
Qed.

Lemma process_document_opened document doc_id documents :
  Documents.process_document (Ok document) doc_id documents
  = (Ok (Documents.mkProcessed (sections_from 1 document)
                               (Z.of_nat (length document))),
     Documents.dict_set doc_id
       (Documents.mkProcessed (sections_from 1 document)
                              (Z.of_nat (length document)))
       documents).
Proof.
  unfold Documents.process_document. cbn [Documents.open_pdf].
  unfold py_range, FitzPDFHandler.number_of_pages.
  replace (Z.of_nat (length document) + 1 - 1) with (Z.of_nat (length document)) by lia.
  rewrite page_sections_range; [|lia|unfold FitzPDFHandler.number_of_pages; lia].
  change (Z.to_nat (1 - 1)) with 0%nat. rewrite drop_0, take_ge by reflexivity.
  reflexivity.
Qed.

(** X8. Once the PDF is open, [process_document] cannot fail: it returns
    the sections of all pages, page after page with the pages numbered
    from 1, and the number of pages; the same document is then stored
    under [doc_id], in place of any earlier one, and the documents under
    other ids are untouched. When the PDF cannot be opened the exception
    names the document and nothing is stored. *)
Theorem process_document_outcome (fitz_open : Result (list string))
    (doc_id : string) (documents : list (string * Documents.ProcessedDocument)) :
  match fitz_open with
  | Ok document =>
      let processed :=
        Documents.mkProcessed (sections_from 1 document)
                              (Z.of_nat (length document)) in
      ∃ documents',
        Documents.process_document fitz_open doc_id documents
        = (Ok processed, documents')
        ∧ Documents.dict_get doc_id documents' = Some processed
        ∧ ∀ other, other ≠ doc_id →
            Documents.dict_get other documents' = Documents.dict_get other documents
  | Raise e =>
      Documents.process_document fitz_open doc_id documents
      = (Raise (Error ("Error processing document " +:+ doc_id
                       +:+ ": Error loading PDF from path: " +:+ message e)),
         documents)
  end.
Proof.
  destruct fitz_open as [document|e]; [|reflexivity].
  rewrite process_document_opened. eexists. split; [reflexivity|]. split.
  - apply dict_get_set.
  - intros other Hne. now apply dict_get_set_other.
Qed.

Lemma sections_from_pages (first : Z) (texts : list string) :
  Forall (λ s, first ≤ page s < first + Z.of_nat (length texts)
               ∧ content s ≠ "")
         (sections_from first texts)
  ∧ StronglySorted (λ a b, page a ≤ page b) (sections_from first texts).
Proof.
  revert first. induction texts as [|text texts IH]; intros first.
  - split; constructor.
  - destruct (IH (first + 1)) as [Hrest Hsorted].
    destruct (sections_are_well_formed text first) as [Hwf _].
    cbn [sections_from length]. split.
    + apply Forall_app. split.
      * eapply Forall_impl; [exact Hwf|]. intros s (Hc & Hp & _). split; [lia|exact Hc].
      * eapply Forall_impl; [exact Hrest|]. intros s [Hp Hc]. split; [lia|exact Hc].
    + apply StronglySorted_app_2; [| | exact Hsorted].
      * intros a b Ha Hb.
        rewrite Forall_forall in Hwf, Hrest.
        destruct (Hwf a Ha) as (_ & Hpa & _). destruct (Hrest b Hb) as [Hpb _]. lia.
      * clear -Hwf. induction Hwf as [|s l (_ & Hp & _) Hl IHl]; constructor; [exact IHl|].
        eapply Forall_impl; [exact Hl|]. intros s' (_ & Hp' & _). lia.
Qed.

(** X9. The sections of a processed document come in page order: their
    page numbers never decrease, each lies between 1 and the number of
    pages, and no section is empty. *)
Theorem processed_sections_in_page_order (document : list string)
    (doc_id : string) (documents : list (string * Documents.ProcessedDocument)) :
  ∃ processed documents',
    Documents.process_document (Ok document) doc_id documents
    = (Ok processed, documents')
    ∧ StronglySorted (λ a b, page a ≤ page b) (Documents.doc_sections processed)
    ∧ Forall (λ s, 1 ≤ page s ≤ Documents.total_pages processed ∧ content s ≠ "")
             (Documents.doc_sections processed).
Proof.
  eexists _, _. split; [apply process_document_opened|].
  cbn [Documents.doc_sections Documents.total_pages].
  destruct (sections_from_pages 1 document) as [Hpages Hsorted].
  split; [exact Hsorted|].
  eapply Forall_impl; [exact Hpages|]. intros s [Hp Hc]. split; [lia|exact Hc].
Qed.
